(** * The conversation-history manager of the Gemini chat relay

    A shallow embedding of [gemini_client.py] (class [GeminiClient]), of the
    [generate_response] function of [terminal_chat.py] and of the reply
    splitting of [bot.py] ([handle_message]), together with the properties
    of the history buffer, the error path and the chunking.

    Conventions of the embedding:
    - a Python [str] is a [string]; one [ascii] stands for one character, so
      [len] is [String.length];
    - a Python [int] is a [Z]; [str(n)] is stdpp's decimal printer [pretty];
    - the dictionary [self.conversations] is a [gmap Z (list Turn)];
    - a method is a computation in the monad [Py S], which threads the
      mutable object [S] and may end in a raised exception; the state that
      was reached before the exception is kept, as in Python. *)

From Stdlib Require Import ZArith Ascii Lia.
From stdpp Require Import base option list gmap strings pretty.

Local Open Scope Z_scope.

(** ** Exceptions and the method monad *)

(** The exceptions the modelled code can meet.  [RemoteError] stands for
    whatever the generation library throws (network, quota, blocked
    content); [text] is what [str(e)] gives. *)
Inductive Exception : Type :=
| KeyError (key : Z)
| IndexError (what : string)
| RemoteError (text : string).

(** [str(e)]: for a [KeyError] Python prints the key. *)
Definition str (e : Exception) : string :=
  match e with
  | KeyError k => pretty k
  | IndexError w => w
  | RemoteError t => t
  end.

Inductive outcome (A : Type) : Type :=
| Returns (a : A)
| Raises (e : Exception).
Arguments Returns {A} a.
Arguments Raises {A} e.

Definition Py (S A : Type) : Type := S -> outcome A * S.

#[global] Instance Py_ret {S} : MRet (Py S) :=
  fun A a s => (Returns a, s).

#[global] Instance Py_bind {S} : MBind (Py S) :=
  fun A B k m s =>
    match m s with
    | (Returns a, s') => k a s'
    | (Raises e, s') => (Raises e, s')
    end.

(** [try: body except Exception as e: handler e]. *)
Definition try_except {S A} (body : Py S A) (handler : Exception -> Py S A)
  : Py S A :=
  fun s =>
    match body s with
    | (Returns a, s') => (Returns a, s')
    | (Raises e, s') => handler e s'
    end.

(** [if c: body] without an [else]. *)
Definition when {S} (c : bool) (body : Py S unit) : Py S unit :=
  if c then body else mret tt.

(** ** Python slices (step 1) *)

(** An index of a slice is moved into [0..len]: a negative one counts from
    the end, and both ends saturate. *)
Definition clamp_index (len i : Z) : nat :=
  Z.to_nat (if i <? 0 then Z.max 0 (len + i) else Z.min i len).

(** [l[i:j]]; [None] is an omitted bound. *)
Definition slice {A} (i j : option Z) (l : list A) : list A :=
  let n := Z.of_nat (length l) in
  let lo := from_option (clamp_index n) 0%nat i in
  let hi := from_option (clamp_index n) (length l) j in
  take (hi - lo) (drop lo l).

Definition len (s : string) : Z := Z.of_nat (String.length s).

(** [s[i:j]] on a [str]. *)
Definition str_slice (i j : option Z) (s : string) : string :=
  String.string_of_list_ascii (slice i j (String.list_ascii_of_string s)).

(** [range(start, stop, step)] for a positive [step]. *)
Definition range (start stop step : Z) : list Z :=
  (fun k => start + Z.of_nat k * step) <$>
    seq 0 (Z.to_nat ((stop - start + step - 1) / step)).

(** The [n] most recent entries of a list that grows at its end. *)
Definition most_recent {A} (n : nat) (l : list A) : list A :=
  drop (length l - n) l.

(** Truth value of a list: empty is false. *)
Definition truthy {A} (l : list A) : bool :=
  match l with [] => false | _ => true end.

(** [enumerate(l, start)] *)
Fixpoint enumerate {A} (l : list A) (start : Z) : list (Z * A) :=
  match l with
  | [] => []
  | x :: l' => (start, x) :: enumerate l' (start + 1)
  end.

(** The parts of a text written one after the other. *)
Fixpoint joined (parts : list string) : string :=
  match parts with
  | [] => EmptyString
  | p :: ps => p +:+ joined ps
  end.

(** The character ["\n"]. *)
Definition newline : string := String "010"%char EmptyString.

(** ** config.py *)

Module config.
Definition MAX_MESSAGE_LENGTH : Z := 4096.
Definition MAX_HISTORY_LENGTH : Z := 10.
End config.

(** ** The generation API *)

(** An entry of a history list: [{'role': role, 'content': content}]. *)
Record Turn : Type := { role : string; content : string }.

#[global] Instance Turn_eq_dec : EqDecision Turn.
Proof. solve_decision. Defined.

(** What a chat request carries: the prior turns and the new message. *)
Definition Request : Type := list Turn * string.

(** [response.text] is a property of the library's response object, and it
    raises when the reply carries no text (a blocked reply). *)
Record Response : Type := { text : outcome string }.

(** [model.start_chat(history=...)] builds a session around the history it
    is given. *)
Record ChatSession : Type := { history : list Turn }.

(** The remote service seen from the client: [transcript] lists the
    requests that went over the wire so far, in order (a ghost record of
    the calls made); [answer] is the service's behaviour, which may depend
    on everything it has received before. *)
Record GenerativeModel : Type := {
  transcript : list Request;
  answer : list Request -> Request -> outcome Response
}.

Definition start_chat (h : list Turn) : Py GenerativeModel ChatSession :=
  mret {| history := h |}.

Definition send_message_async (chat : ChatSession) (message : string)
  : Py GenerativeModel Response :=
  fun m =>
    let req := (history chat, message) in
    (answer m (transcript m) req,
     {| transcript := transcript m ++ [req]; answer := answer m |}).

(** Reading the property [response.text]. *)
Definition get_text {S} (response : Response) : Py S string :=
  fun s => (text response, s).

(** The remote call for [req] fails with [e]: sending raises [e], or a
    response comes back without a text and reading [response.text] raises
    [e]. *)
Definition remote_call_fails (m : GenerativeModel) (req : Request)
  (e : Exception) : Prop :=
  answer m (transcript m) req = Raises e
  \/ exists response,
       answer m (transcript m) req = Returns response
       /\ text response = Raises e.

(** ** gemini_client.py *)

Module GeminiClient.

(** The object: [self.model] and [self.conversations]. *)
Record t : Type := {
  model : GenerativeModel;
  conversations : gmap Z (list Turn)
}.

(** A call on [self.model]. *)
Definition on_model {A} (act : Py GenerativeModel A) : Py t A :=
  fun self =>
    let '(r, m) := act (model self) in
    (r, {| model := m; conversations := conversations self |}).

(** [user_id in self.conversations] *)
Definition contains (user_id : Z) : Py t bool :=
  fun self => (Returns (bool_decide (is_Some (conversations self !! user_id))), self).

(** [self.conversations[user_id]]: a [KeyError] when the key is absent. *)
Definition getitem (user_id : Z) : Py t (list Turn) :=
  fun self =>
    match conversations self !! user_id with
    | Some l => (Returns l, self)
    | None => (Raises (KeyError user_id), self)
    end.

(** [self.conversations[user_id] = l] *)
Definition setitem (user_id : Z) (l : list Turn) : Py t unit :=
  fun self =>
    (Returns tt,
     {| model := model self;
        conversations := <[user_id := l]> (conversations self) |}).

(** [self.conversations.get(user_id, default)] *)
Definition get (user_id : Z) (dflt : list Turn) : Py t (list Turn) :=
  fun self => (Returns (default dflt (conversations self !! user_id)), self).

(** [self.conversations[user_id].append(x)]: the list is changed in
    place, which for the dictionary is the entry holding the longer
    list. *)
Definition append (user_id : Z) (x : Turn) : Py t unit :=
  l ← getitem user_id;
  setitem user_id (l ++ [x]).

Definition add_message_to_history (user_id : Z) (role content : string)
  : Py t unit :=
  present ← contains user_id;
  when (negb present) (setitem user_id []);;
  append user_id {| role := role; content := content |};;
  l ← getitem user_id;
  when (bool_decide (Z.of_nat (length l) > config.MAX_HISTORY_LENGTH * 2))
    (l ← getitem user_id;
     setitem user_id (slice (Some (- config.MAX_HISTORY_LENGTH * 2)) None l)).

Definition clear_conversation (user_id : Z) : Py t unit :=
  present ← contains user_id;
  when present (setitem user_id []).

(** The argument of [start_chat] on line 44:
    [history[:-1] if history else []]. *)
Definition context_of (history : list Turn) : list Turn :=
  if truthy history then slice None (Some (-1)) history else [].

(** The [print] of the handler writes to the console only and is left
    out. *)
Definition generate_response (user_id : Z) (message : string)
  : Py t string :=
  try_except
    (add_message_to_history user_id "user" message;;
     history ← get user_id [];
     chat ← on_model (start_chat (context_of history));
     response ← on_model (send_message_async chat message);
     reply ← get_text response;
     add_message_to_history user_id "model" reply;;
     get_text response)
    (fun e =>
       let error_message := "Sorry, I encountered an error: " +:+ str e in
       mret error_message).

(** One pass of the loop body of [get_conversation_summary]. *)
Definition summary_line (summary : string) (entry : Z * Turn) : string :=
  let '(i, msg) := entry in
  let role := if bool_decide (role msg = "user") then "You" else "Bot" in
  let content :=
    if bool_decide (len (content msg) > 50)
    then str_slice None (Some 50) (content msg) +:+ "..."
    else content msg in
  summary +:+ pretty i +:+ ". " +:+ role +:+ ": " +:+ content +:+ newline.

Definition get_conversation_summary (user_id : Z) : Py t string :=
  present ← contains user_id;
  nothing ← (if negb present then mret true
             else l ← getitem user_id; mret (negb (truthy l)));
  if (nothing : bool) then mret "No conversation history."
  else
    messages ← getitem user_id;
    let summary :=
      "Conversation has " +:+ pretty (Z.of_nat (length messages))
        +:+ " messages:" +:+ newline in
    mret (foldl summary_line summary
            (enumerate (slice (Some (-5)) None messages) 1)).

(** A call of one of the two mutators of the store, and a run of such
    calls one after the other. *)
Inductive Call : Type :=
| AddMessage (user_id : Z) (role content : string)
| ClearConversation (user_id : Z).

Definition call_user (c : Call) : Z :=
  match c with
  | AddMessage u _ _ => u
  | ClearConversation u => u
  end.

Definition call (c : Call) : Py t unit :=
  match c with
  | AddMessage u r x => add_message_to_history u r x
  | ClearConversation u => clear_conversation u
  end.

Fixpoint calls (cs : list Call) : Py t unit :=
  match cs with
  | [] => mret tt
  | c :: cs' => call c;; calls cs'
  end.

(** The entry of [who] after a call is a function of the entry of [who]
    before it; a call for somebody else leaves it as it is. *)
Definition entry_after (c : Call) (who : Z) (before : option (list Turn))
  : option (list Turn) :=
  if decide (call_user c = who) then
    match c with
    | AddMessage _ r x =>
        Some (most_recent 20 (default [] before ++ [{| role := r; content := x |}]))
    | ClearConversation _ => (fun _ => []) <$> before
    end
  else before.

(** The calls that append the given turns for one user, in order. *)
Definition appends (user_id : Z) (turns : list Turn) : list Call :=
  (fun x => AddMessage user_id (role x) (content x)) <$> turns.

(** The user's buffer as a reader sees it (line 41 of the source):
    an absent entry reads as the empty list. *)
Definition buffer (self : t) (user_id : Z) : list Turn :=
  default [] (conversations self !! user_id).

End GeminiClient.

(** ** terminal_chat.py *)

Module terminal_chat.

(** The module's globals: [model] and [conversation_history]. *)
Record t : Type := {
  model : GenerativeModel;
  conversation_history : list Turn
}.

Definition on_model {A} (act : Py GenerativeModel A) : Py t A :=
  fun g =>
    let '(r, m) := act (model g) in
    (r, {| model := m; conversation_history := conversation_history g |}).

Definition read_history : Py t (list Turn) :=
  fun g => (Returns (conversation_history g), g).

(** [conversation_history.append(x)] *)
Definition append (x : Turn) : Py t unit :=
  fun g =>
    (Returns tt,
     {| model := model g;
        conversation_history := conversation_history g ++ [x] |}).

(** [conversation_history.pop(0)]: an [IndexError] on the empty list. *)
Definition pop0 : Py t Turn :=
  fun g =>
    match conversation_history g with
    | [] => (Raises (IndexError "pop from empty list"), g)
    | x :: l => (Returns x, {| model := model g; conversation_history := l |})
    end.

(** The [logger.error] of the handler is left out. *)
Definition generate_response (message : string) : Py t string :=
  try_except
    (append {| role := "user"; content := message |};;
     l ← read_history;
     when (bool_decide (Z.of_nat (length l) > 20)) (pop0;; mret tt);;
     l ← read_history;
     chat ← on_model (start_chat (slice None (Some (-1)) l));
     response ← on_model (send_message_async chat message);
     reply ← get_text response;
     append {| role := "model"; content := reply |};;
     get_text response)
    (fun e => mret ("Sorry, I encountered an error: " +:+ str e)).

(** A session: the messages are handled one after the other, and the
    replies are collected. *)
Fixpoint chat_loop (messages : list string) : Py t (list string) :=
  match messages with
  | [] => mret []
  | m :: ms =>
      r ← generate_response m;
      rs ← chat_loop ms;
      mret (r :: rs)
  end.

End terminal_chat.

(** ** bot.py *)

Module bot.

(** The module's global [gemini_client], and the texts handed to the
    platform so far, in the order they were sent. *)
Record t : Type := {
  gemini_client : GeminiClient.t;
  delivered : list string
}.

Definition on_client {A} (act : Py GeminiClient.t A) : Py t A :=
  fun b =>
    let '(r, c) := act (gemini_client b) in
    (r, {| gemini_client := c; delivered := delivered b |}).

(** [update.message.reply_text(x)] and [context.bot.send_message(text=x)]
    both hand one text to the platform. *)
Definition send (x : string) : Py t unit :=
  fun b =>
    (Returns tt,
     {| gemini_client := gemini_client b; delivered := delivered b ++ [x] |}).

Fixpoint send_all (xs : list string) : Py t unit :=
  match xs with
  | [] => mret tt
  | x :: xs' => send x;; send_all xs'
  end.

(** The list comprehension of line 147. *)
Definition chunks_of (response : string) : list string :=
  (fun i => str_slice (Some i) (Some (i + config.MAX_MESSAGE_LENGTH)) response)
    <$> range 0 (len response) config.MAX_MESSAGE_LENGTH.

(** The UTF-8 bytes of the cross mark that opens the fallback text. *)
Definition cross_mark : string :=
  String "226"%char (String "157"%char (String "140"%char EmptyString)).

(** The typing indicator sent before the [try] and the [logger.error] of
    the handler carry no text and are left out; handing a text to the
    platform is taken to succeed. *)
Definition handle_message (user_id : Z) (message_text : string)
  : Py t unit :=
  try_except
    (response ← on_client (GeminiClient.generate_response user_id message_text);
     if bool_decide (len response > config.MAX_MESSAGE_LENGTH)
     then send_all (chunks_of response)
     else send response)
    (fun e =>
       send (cross_mark +:+
         " Sorry, I encountered an error processing your message. Please try again.")).

End bot.

(** ** Concrete inputs used in the examples *)

(** A client that has served nobody, in front of a service that answers
    every request with [reply]. *)
Definition steady_model (reply : outcome Response) : GenerativeModel :=
  {| transcript := []; answer := fun _ _ => reply |}.

Definition fresh_client (reply : outcome Response) : GeminiClient.t :=
  {| GeminiClient.model := steady_model reply;
     GeminiClient.conversations := ∅ |}.

Definition fresh_terminal (reply : outcome Response) : terminal_chat.t :=
  {| terminal_chat.model := steady_model reply;
     terminal_chat.conversation_history := [] |}.

(** Turn number [i] of a numbered conversation: odd ones are the user's. *)
Definition numbered_turn (i : nat) : Turn :=
  {| role := if Nat.odd i then "user" else "model";
     content := "turn " +:+ pretty (Z.of_nat i) |}.

Definition numbered_turns (first count : nat) : list Turn :=
  numbered_turn <$> seq first count.

(** [n] times the letter x. *)
Fixpoint letters (n : nat) : string :=
  match n with
  | O => EmptyString
  | S n' => String "x"%char (letters n')
  end.

(** A bot whose service answers every request with 4100 letters. *)
Definition verbose_bot : bot.t :=
  {| bot.gemini_client := fresh_client (Returns {| text := Returns (letters 4100) |});
     bot.delivered := [] |}.

(** A service that always answers with a text: whatever it has received
    and whatever is asked, the response has a readable [text]. *)
Definition always_answers (m : GenerativeModel) : Prop :=
  forall received req, exists response reply,
    answer m received req = Returns response /\ text response = Returns reply.

(** A client in which user 7 has seven short turns and user 8 one turn of
    sixty characters. *)
Definition chatty_client : GeminiClient.t :=
  {| GeminiClient.model := steady_model (Raises (RemoteError "offline"));
     GeminiClient.conversations :=
       <[8 := [{| role := "user";
                  content := "123456789 123456789 123456789 123456789 123456789 123456789 " |}]]>
         (<[7 := numbered_turns 1 7]> ∅) |}.


(** ** More of the repository: the other variants and the handlers *)

(** The fixed texts of the handlers are written as in the source; their
    characters outside ASCII stand as their UTF-8 bytes, and nothing below
    depends on the length of such a text. *)

(** [s.startswith(p)] *)
Definition startswith (p s : string) : bool := String.prefix p s.

(** [c.isspace()] for a character below 256: the ASCII white space, the
    four separators 28 to 31, NEL and the no-break space. *)
Definition isspace (c : ascii) : bool :=
  let n := N_of_ascii c in
  ((9 <=? n) && (n <=? 13) || (28 <=? n) && (n <=? 32)
   || (n =? 133) || (n =? 160))%N.

(** [c.lower()] for a character below 256: the letters A to Z, and the
    Latin-1 capitals 192 to 222 apart from the multiplication sign. *)
Definition lower_char (c : ascii) : ascii :=
  let n := N_of_ascii c in
  if ((65 <=? n) && (n <=? 90)
      || (192 <=? n) && (n <=? 222) && negb (n =? 215))%N
  then ascii_of_N (n + 32) else c.

(** [s.lower()] *)
Fixpoint lower (s : string) : string :=
  match s with
  | EmptyString => EmptyString
  | String c s' => String (lower_char c) (lower s')
  end.

(** [s.lstrip()], [s.rstrip()] and [s.strip()] *)
Fixpoint lstrip (s : string) : string :=
  match s with
  | EmptyString => EmptyString
  | String c s' => if isspace c then lstrip s' else s
  end.

Fixpoint rstrip (s : string) : string :=
  match s with
  | EmptyString => EmptyString
  | String c s' =>
      match rstrip s' with
      | EmptyString => if isspace c then EmptyString else String c EmptyString
      | r => String c r
      end
  end.

Definition strip (s : string) : string := rstrip (lstrip s).

(** ["\n".join(ls)] *)
Fixpoint join_lines (ls : list string) : string :=
  match ls with
  | [] => EmptyString
  | [l] => l
  | l :: ls' => l +:+ newline +:+ join_lines ls'
  end.

(** The turns of a dialogue: each message followed by its reply. *)
Fixpoint exchanges (messages replies : list string) : list Turn :=
  match messages, replies with
  | m :: ms, r :: rs =>
      {| role := "user"; content := m |}
        :: {| role := "model"; content := r |} :: exchanges ms rs
  | _, _ => []
  end.

(** The users for whom a run of store calls appends a turn. *)
Definition appended_users (cs : list GeminiClient.Call) : gset Z :=
  list_to_set
    (omap (fun c => match c with
                    | GeminiClient.AddMessage u _ _ => Some u
                    | GeminiClient.ClearConversation _ => None
                    end) cs).

(** *** simple_bot.py and ultra_simple_bot.py: the shared functions *)

(** [generate_response] and [clear_history] have the same text in both
    files (lines 33-61 and 34-62).  The globals [model] and
    [conversations] have the shape of a [GeminiClient] object, whose
    record and dictionary operations are used again.  Both [main]
    functions return before any call when the API key, and with it
    [model], is missing. *)
Module simple_bot.

Definition t : Type := GeminiClient.t.

(** The [logger.error] of the handler is left out.  The last append looks
    the list up before [response.text] is read, as Python evaluates the
    call. *)
Definition generate_response (user_id : Z) (message : string)
  : Py t string :=
  try_except
    (present ← GeminiClient.contains user_id;
     when (negb present) (GeminiClient.setitem user_id []);;
     GeminiClient.append user_id {| role := "user"; content := message |};;
     l ← GeminiClient.getitem user_id;
     when (bool_decide (Z.of_nat (length l) > 20))
       (l ← GeminiClient.getitem user_id;
        GeminiClient.setitem user_id (slice (Some (-20)) None l));;
     l ← GeminiClient.getitem user_id;
     chat ← GeminiClient.on_model (start_chat (slice None (Some (-1)) l));
     response ← GeminiClient.on_model (send_message_async chat message);
     l ← GeminiClient.getitem user_id;
     reply ← get_text response;
     GeminiClient.setitem user_id (l ++ [{| role := "model"; content := reply |}]);;
     get_text response)
    (fun e => mret ("Sorry, I encountered an error: " +:+ str e)).

Definition clear_history (user_id : Z) : Py t unit :=
  present ← GeminiClient.contains user_id;
  when present (GeminiClient.setitem user_id []).

End simple_bot.

(** *** Runs of messages and clear requests on the two stores *)

Module dialogue.

(** What a user can ask of a bot: an answer to a message, or to forget
    the conversation. *)
Inductive Step : Type :=
| Say (user_id : Z) (message : string)
| Forget (user_id : Z).

(** The steps on a [GeminiClient], as [bot.py] drives it; the replies are
    collected. *)
Fixpoint run_gemini (steps : list Step) : Py GeminiClient.t (list string) :=
  match steps with
  | [] => mret []
  | Say u m :: rest =>
      r ← GeminiClient.generate_response u m;
      rs ← run_gemini rest;
      mret (r :: rs)
  | Forget u :: rest =>
      GeminiClient.clear_conversation u;;
      run_gemini rest
  end.

(** The same steps on the globals of [simple_bot.py]. *)
Fixpoint run_simple (steps : list Step) : Py simple_bot.t (list string) :=
  match steps with
  | [] => mret []
  | Say u m :: rest =>
      r ← simple_bot.generate_response u m;
      rs ← run_simple rest;
      mret (r :: rs)
  | Forget u :: rest =>
      simple_bot.clear_history u;;
      run_simple rest
  end.

(** The two stores tell the same story: the same service state, and for
    every user the [GeminiClient] entry is the last 20 turns of the
    [simple_bot] entry. *)
Definition matches (g : GeminiClient.t) (s : simple_bot.t) : Prop :=
  GeminiClient.model g = GeminiClient.model s
  /\ forall u,
       GeminiClient.conversations g !! u
       = most_recent 20 <$> GeminiClient.conversations s !! u.

End dialogue.

(** *** bot.py: the [/clear] and [/history] handlers *)

Module bot_commands.

Definition clear_command (user_id : Z) : Py bot.t unit :=
  bot.on_client (GeminiClient.clear_conversation user_id);;
  bot.send "🧹 Conversation history cleared! We're starting fresh. 😊".

Definition history_command (user_id : Z) : Py bot.t unit :=
  summary ← bot.on_client (GeminiClient.get_conversation_summary user_id);
  bot.send ("📚 **Conversation History:**" +:+ newline +:+ newline +:+ summary).

End bot_commands.

(** *** terminal_chat.py: [clear_history] and the loop of [main] *)

Module terminal_session.

(** [clear_history]: the global is bound to a new empty list; the [print]
    is left out. *)
Definition clear_history : Py terminal_chat.t unit :=
  fun g =>
    (Returns tt,
     {| terminal_chat.model := terminal_chat.model g;
        terminal_chat.conversation_history := [] |}).

(** How one pass of the [while] loop ends. *)
Inductive Flow : Type := Continue | Break.

(** One pass of the loop of [main] on a line read by [input]; what is
    printed goes to the console only and is left out, so [show_help],
    [show_about] and the unknown-command branch only continue. *)
Definition turn (line : string) : Py terminal_chat.t Flow :=
  let user_input := strip line in
  if bool_decide (lower user_input ∈ ["/quit"; "/exit"; "quit"; "exit"])
  then mret Break
  else if bool_decide (lower user_input = "/help") then mret Continue
  else if bool_decide (lower user_input = "/clear")
       then clear_history;; mret Continue
  else if bool_decide (lower user_input = "/about") then mret Continue
  else if startswith "/" user_input then mret Continue
  else if bool_decide (user_input = EmptyString) then mret Continue
  else
    terminal_chat.generate_response user_input;;
    mret Continue.

(** The loop on the lines typed in a session.  When the lines run out,
    [input] raises [EOFError], which the handler of [main] catches: the
    loop ends there as well. *)
Fixpoint session (lines : list string) : Py terminal_chat.t unit :=
  match lines with
  | [] => mret tt
  | line :: rest =>
      flow ← turn line;
      match flow with
      | Break => mret tt
      | Continue => session rest
      end
  end.

(** A line that is a message for the model: something is left after
    [strip], it does not begin with a slash, and it is none of the words
    that end the session. *)
Definition plain (line : string) : Prop :=
  strip line <> EmptyString
  /\ startswith "/" (strip line) = false
  /\ lower (strip line) ∉ ["/quit"; "/exit"; "quit"; "exit"].

End terminal_session.

(** *** ultra_simple_bot.py: the polling loop of [main] *)

Module ultra_simple_bot.

Definition BOT_NAME : string := "Gemini Chat Bot".




(** The globals of [simple_bot.py], and the [sendMessage] requests made so
    far: chat and text, in order. *)
Record t : Type := {
  store : simple_bot.t;
  posted : list (Z * string)
}.

Definition on_store {A} (act : Py simple_bot.t A) : Py t A :=
  fun b =>
    let '(r, c) := act (store b) in
    (r, {| store := c; posted := posted b |}).

(** [send_telegram_message]: the request is made; a failure of the HTTP
    call is caught inside, and the caller ignores what is returned. *)
Definition send_telegram_message (chat : Z) (x : string) : Py t unit :=
  fun b =>
    (Returns tt, {| store := store b; posted := posted b ++ [(chat, x)] |}).

(** The text sent for [/start] (lines 129-141). *)
Definition welcome : string :=
  join_lines
    [EmptyString;
     "🤖 Welcome to " +:+ BOT_NAME +:+ "!";
     EmptyString;
     "I'm powered by Google's Gemini AI and ready to chat!";
     EmptyString;
     "Commands:";
     "• Just send a message to chat";
     "• /help - Show help";
     "• /clear - Clear history";
     "• /about - About this bot";
     EmptyString;
     "Start chatting now! 🚀";
     "                                "].

(** The text sent for [/help] (lines 145-155). *)
Definition help_text : string :=
  join_lines
    [EmptyString;
     "🤖 **Bot Commands:**";
     EmptyString;
     "• Send any message to chat with me";
     "• /start - Welcome message";
     "• /help - Show this help";
     "• /clear - Clear conversation history";
     "• /about - About this bot";
     EmptyString;
     "I can help with questions, writing, coding, and more!";
     "                                "].

(** The text sent for [/about] (lines 163-170). *)
Definition about_text : string :=
  join_lines
    [EmptyString;
     "🤖 **About " +:+ BOT_NAME +:+ "**";
     EmptyString;
     "• Powered by Google Gemini 1.5 Flash";
     "• Built with Python and direct Telegram API";
     "• Features: AI chat, context awareness";
     "• Free to use with Gemini API";
     "                                "].

(** Lines 128-176: what is done with the text of a message. *)
Definition handle_text (chat user_id : Z) (x : string) : Py t unit :=
  if startswith "/start" x then send_telegram_message chat welcome
  else if startswith "/help" x then send_telegram_message chat help_text
  else if startswith "/clear" x then
    on_store (simple_bot.clear_history user_id);;
    send_telegram_message chat "🧹 Conversation history cleared!"
  else if startswith "/about" x then send_telegram_message chat about_text
  else
    response ← on_store (simple_bot.generate_response user_id x);
    send_telegram_message chat response.






End ultra_simple_bot.

(** *** Inputs of the examples *)

(** A service that echoes: the reply to a message is the message in
    brackets. *)
Definition echo_model : GenerativeModel :=
  {| transcript := [];
     answer := fun _ req => Returns {| text := Returns ("[" +:+ req.2 +:+ "]") |} |}.

Definition echo_client : GeminiClient.t :=
  {| GeminiClient.model := echo_model; GeminiClient.conversations := ∅ |}.

(** There user 1 already has twenty stored turns. *)
Definition full_client : GeminiClient.t :=
  {| GeminiClient.model := echo_model;
     GeminiClient.conversations := <[1 := numbered_turns 1 20]> ∅ |}.

Definition echo_terminal : terminal_chat.t :=
  {| terminal_chat.model := echo_model;
     terminal_chat.conversation_history := [] |}.

Definition echo_bot : bot.t :=
  {| bot.gemini_client := echo_client; bot.delivered := [] |}.

Definition echo_poller : ultra_simple_bot.t :=
  {| ultra_simple_bot.store := echo_client; ultra_simple_bot.posted := [] |}.


(** * Properties *)

(** ** Slices *)

Section slices.
Context {A : Type}.
Implicit Types l : list A.

(** [l[-k:]] keeps the last [k] elements. *)
Lemma slice_suffix (k : nat) l :
  (0 < k)%nat -> slice (Some (- Z.of_nat k)) None l = drop (length l - k) l.
Proof.
  intros Hk. unfold slice, clamp_index. cbn [from_option].
  replace (- Z.of_nat k <? 0) with true by (symmetry; apply Z.ltb_lt; lia).
  replace (Z.to_nat (Z.max 0 (Z.of_nat (length l) + - Z.of_nat k)))
    with (length l - k)%nat by lia.
  apply take_ge. rewrite length_drop. lia.
Qed.

(** [l[:-1]] drops the last element. *)
Lemma slice_init l : slice None (Some (-1)) l = take (length l - 1) l.
Proof.
  unfold slice, clamp_index. cbn [from_option].
  change (-1 <? 0) with true. cbn match. rewrite drop_0.
  f_equal. lia.
Qed.

Lemma slice_init_snoc l x : slice None (Some (-1)) (l ++ [x]) = l.
Proof.
  rewrite slice_init, length_app. cbn [length].
  replace (length l + 1 - 1)%nat with (length l) by lia.
  by rewrite take_app_length.
Qed.

(** [l[i:i+n]] for [i] and [n] that are not negative. *)
Lemma slice_window (i n : nat) l :
  slice (Some (Z.of_nat i)) (Some (Z.of_nat i + Z.of_nat n)) l
  = take n (drop i l).
Proof.
  unfold slice, clamp_index. cbn [from_option].
  replace (Z.of_nat i <? 0) with false by (symmetry; apply Z.ltb_ge; lia).
  replace (Z.of_nat i + Z.of_nat n <? 0) with false
    by (symmetry; apply Z.ltb_ge; lia).
  destruct (decide (length l <= i)%nat) as [Hge|Hlt].
  - rewrite !drop_ge by lia. by rewrite !take_nil.
  - replace (Z.to_nat (Z.min (Z.of_nat i) (Z.of_nat (length l)))) with i by lia.
    destruct (decide (i + n <= length l)%nat).
    + f_equal. lia.
    + rewrite !take_ge; [done | rewrite length_drop; lia..].
Qed.

(** [l[:n]] *)
Lemma slice_prefix (n : nat) l : slice None (Some (Z.of_nat n)) l = take n l.
Proof.
  unfold slice, clamp_index. cbn [from_option].
  replace (Z.of_nat n <? 0) with false by (symmetry; apply Z.ltb_ge; lia).
  rewrite drop_0, Nat.sub_0_r.
  destruct (decide (n <= length l)%nat).
  - f_equal. lia.
  - rewrite !take_ge; [done | lia..].
Qed.
End slices.

(** ** Strings as lists of characters *)

Section strings.
Implicit Types (s : string) (cs : list ascii).

Lemma append_cons (c : ascii) s1 s2 :
  String c s1 +:+ s2 = String c (s1 +:+ s2).
Proof. reflexivity. Qed.

Lemma append_assoc s1 s2 s3 : (s1 +:+ s2) +:+ s3 = s1 +:+ s2 +:+ s3.
Proof.
  induction s1 as [|c s1 IH]; [done|]. by rewrite !append_cons, IH.
Qed.

Lemma append_empty_r s : s +:+ EmptyString = s.
Proof. induction s as [|c s IH]; [done|]. by rewrite append_cons, IH. Qed.

Lemma string_of_list_app cs1 cs2 :
  String.string_of_list_ascii (cs1 ++ cs2)
  = String.string_of_list_ascii cs1 +:+ String.string_of_list_ascii cs2.
Proof.
  induction cs1 as [|c cs1 IH]; [done|].
  cbn [app String.string_of_list_ascii]. by rewrite append_cons, IH.
Qed.

Lemma length_string_of_list cs :
  String.length (String.string_of_list_ascii cs) = length cs.
Proof. induction cs as [|c cs IH]; simpl; [done|]. by rewrite IH. Qed.

Lemma length_list_of_string s :
  length (String.list_ascii_of_string s) = String.length s.
Proof. induction s as [|c s IH]; simpl; [done|]. by rewrite IH. Qed.

Lemma joined_app (ps qs : list string) :
  joined (ps ++ qs) = joined ps +:+ joined qs.
Proof.
  induction ps as [|p ps IH]; cbn [joined app]; [done|].
  by rewrite IH, append_assoc.
Qed.

(** [s[:n]] is the first [n] characters, and the rest follows it. *)
Lemma str_slice_prefix (n : nat) s :
  (n <= String.length s)%nat ->
  exists rest,
    s = str_slice None (Some (Z.of_nat n)) s +:+ rest
    /\ String.length (str_slice None (Some (Z.of_nat n)) s) = n.
Proof.
  intros Hn. unfold str_slice. rewrite slice_prefix.
  exists (String.string_of_list_ascii (drop n (String.list_ascii_of_string s))).
  rewrite <-string_of_list_app, take_drop, String.string_of_list_ascii_of_string.
  split; [done|].
  rewrite length_string_of_list, length_take, length_list_of_string. lia.
Qed.
End strings.

(** ** The store of [GeminiClient] *)

Section store.
Import GeminiClient.
Implicit Types (self : GeminiClient.t) (user_id : Z) (l : list Turn).

Lemma buffer_lookup self user_id l :
  conversations self !! user_id = Some l -> buffer self user_id = l.
Proof. unfold buffer. by intros ->. Qed.

Lemma buffer_absent self user_id :
  conversations self !! user_id = None -> buffer self user_id = [].
Proof. unfold buffer. by intros ->. Qed.

Lemma buffer_insert (m : GenerativeModel) (cs : gmap Z (list Turn)) user_id l :
  buffer {| model := m; conversations := <[user_id := l]> cs |} user_id = l.
Proof. unfold buffer. cbn. by rewrite lookup_insert_eq. Qed.

(** What one call of [add_message_to_history] does to the object: it
    never raises, and the user's entry becomes the old buffer with the
    new turn at its end, cut down to its last 20 entries. *)
Lemma add_message_to_history_run self user_id r c :
  add_message_to_history user_id r c self
  = (Returns tt,
     {| model := model self;
        conversations :=
          <[user_id := most_recent 20
                         (buffer self user_id ++ [{| role := r; content := c |}])]>
            (conversations self) |}).
Proof.
  unfold add_message_to_history, append, contains, getitem, setitem, when,
    buffer, most_recent, mbind, mret, Py_bind, Py_ret.
  destruct (conversations self !! user_id) as [l|] eqn:E.
  - rewrite bool_decide_eq_true_2 by eauto. cbn -[slice Z.of_nat Z.mul].
    rewrite E. cbn -[slice Z.of_nat Z.mul]. rewrite lookup_insert_eq.
    case_bool_decide as Hlen; cbn -[slice Z.of_nat Z.mul];
      rewrite ?lookup_insert_eq, ?insert_insert_eq;
      rewrite length_app in Hlen; cbn [length] in Hlen;
      unfold config.MAX_HISTORY_LENGTH in *.
    + change (- (10) * 2) with (- Z.of_nat 20).
      rewrite slice_suffix by lia. cbn.
      by rewrite insert_insert_eq.
    + rewrite length_app. cbn [length].
      replace (length l + 1 - 20)%nat with 0%nat by lia. done.
  - rewrite bool_decide_eq_false_2 by (intros [? ?]; done).
    cbn -[slice Z.of_nat Z.mul]. rewrite lookup_insert_eq.
    cbn -[slice Z.of_nat Z.mul]. rewrite lookup_insert_eq.
    rewrite bool_decide_eq_false_2 by (unfold config.MAX_HISTORY_LENGTH; cbn; lia).
    by rewrite !insert_insert_eq.
Qed.

Lemma clear_conversation_run self user_id :
  clear_conversation user_id self
  = (Returns tt,
     match conversations self !! user_id with
     | Some _ =>
         {| model := model self;
            conversations := <[user_id := []]> (conversations self) |}
     | None => self
     end).
Proof.
  unfold clear_conversation, contains, setitem, when, mbind, mret,
    Py_bind, Py_ret.
  destruct (conversations self !! user_id) as [l|] eqn:E.
  - by rewrite bool_decide_eq_true_2 by eauto.
  - by rewrite bool_decide_eq_false_2 by (intros [? ?]; done).
Qed.

Lemma calls_cons c cs self :
  calls (c :: cs) self
  = match call c self with
    | (Returns _, s) => calls cs s
    | (Raises e, s) => (Raises e, s)
    end.
Proof. reflexivity. Qed.

(** A call on the store never raises and never touches [self.model]. *)
Lemma call_returns c self :
  exists self', call c self = (Returns tt, self') /\ model self' = model self.
Proof.
  destruct c as [u r x|u]; cbn [call].
  - rewrite add_message_to_history_run. eauto.
  - rewrite clear_conversation_run. eexists; split; [done|].
    by destruct (conversations self !! u).
Qed.

Lemma calls_returns cs self :
  exists self', calls cs self = (Returns tt, self') /\ model self' = model self.
Proof.
  revert self. induction cs as [|c cs IH]; intros self.
  - by exists self.
  - rewrite calls_cons.
    destruct (call_returns c self) as (s1 & -> & Hm).
    destruct (IH s1) as (s2 & -> & Hm2). exists s2. split; [done|congruence].
Qed.

Lemma call_entry c who self self' :
  call c self = (Returns tt, self') ->
  conversations self' !! who = entry_after c who (conversations self !! who).
Proof.
  unfold entry_after.
  destruct c as [u r x|u]; cbn [call call_user].
  - rewrite add_message_to_history_run. intros [= <-]. cbn.
    rewrite lookup_insert. unfold buffer. by case_decide; subst.
  - rewrite clear_conversation_run. intros [= <-].
    destruct (conversations self !! u) as [l|] eqn:E; cbn.
    + rewrite lookup_insert. case_decide; subst; [by rewrite E|done].
    + case_decide; subst; [by rewrite E|done].
Qed.

Lemma most_recent_length {A} (n : nat) (l : list A) :
  length (most_recent n l) = Nat.min (length l) n.
Proof. unfold most_recent. rewrite length_drop. lia. Qed.

Lemma most_recent_all {A} (n : nat) (l : list A) :
  (length l <= n)%nat -> most_recent n l = l.
Proof.
  intros H. unfold most_recent.
  by replace (length l - n)%nat with 0%nat by lia.
Qed.

(** Cutting early does not change what is kept in the end. *)
Lemma most_recent_app {A} (n : nat) (l l' : list A) :
  most_recent n (most_recent n l ++ l') = most_recent n (l ++ l').
Proof.
  unfold most_recent at 2.
  rewrite <-(drop_app_le l l') by lia.
  unfold most_recent. rewrite drop_drop. f_equal.
  rewrite length_drop, !length_app. lia.
Qed.

(** A run of appends for one user, in closed form. *)
Lemma appends_run user_id turns self :
  turns <> [] ->
  calls (appends user_id turns) self
  = (Returns tt,
     {| model := model self;
        conversations :=
          <[user_id := most_recent 20 (buffer self user_id ++ turns)]>
            (conversations self) |}).
Proof.
  revert self. induction turns as [|x turns IH]; intros self Hne; [done|].
  cbn [appends fmap list_fmap]. rewrite calls_cons. cbn [call].
  rewrite add_message_to_history_run.
  destruct turns as [|y turns].
  - cbn. by destruct x.
  - change (list_fmap _ _ ?f (y :: turns)) with (appends user_id (y :: turns)).
    rewrite IH by done. cbn [model conversations]. unfold buffer at 1.
    cbn [conversations]. rewrite lookup_insert_eq, insert_insert_eq.
    cbn [default from_option id]. rewrite most_recent_app, <-app_assoc.
    by destruct x.
Qed.
End store.

Section store_claims.
Import GeminiClient.
Implicit Types (self : GeminiClient.t) (user_id : Z) (l : list Turn).

(** C1.  Start from a client in which the user has no turns, and append
    any sequence of turns for that user with [add_message_to_history].
    No call raises; afterwards the buffer has at most
    [2 * MAX_HISTORY_LENGTH = 20] entries, and it is exactly the most
    recent [min (number appended) 20] of the appended turns, in their
    order.  The sequence is arbitrary, so this holds after each call of
    a longer run.  For 50 appended turns the buffer has exactly 20
    entries: the turns 31 to 50. *)
Theorem history_keeps_most_recent_turns self user_id (turns : list Turn) :
  buffer self user_id = [] ->
  exists self',
    calls (appends user_id turns) self = (Returns tt, self')
    /\ Z.of_nat (length (buffer self' user_id)) <= 2 * config.MAX_HISTORY_LENGTH
    /\ buffer self' user_id = most_recent (Nat.min (length turns) 20) turns
    /\ (length turns = 50%nat ->
        length (buffer self' user_id) = 20%nat
        /\ buffer self' user_id = drop 30 turns).
Proof.
  intros Hempty.
  destruct (decide (turns = [])) as [->|Hne].
  - exists self. rewrite Hempty. cbn. repeat split; done || lia.
  - rewrite appends_run by done. eexists. split; [done|].
    match goal with |- context [buffer ?s user_id] => set (self' := s) end.
    assert (buffer self' user_id = most_recent 20 turns) as ->.
    { unfold buffer at 1. subst self'. cbn [conversations].
      rewrite lookup_insert_eq. cbn [default from_option id].
      by rewrite Hempty. }
    rewrite most_recent_length. unfold config.MAX_HISTORY_LENGTH.
    split; [lia|]. split.
    + unfold most_recent. f_equal. lia.
    + intros H50. split; [lia|]. unfold most_recent. by rewrite H50.
Qed.

Lemma history_keeps_most_recent_turns_witness :
  exists self',
    calls (appends 7 (numbered_turns 1 50))
      (fresh_client (Raises (RemoteError "offline"))) = (Returns tt, self')
    /\ Z.of_nat (length (buffer self' 7)) <= 2 * config.MAX_HISTORY_LENGTH
    /\ buffer self' 7
       = most_recent (Nat.min (length (numbered_turns 1 50)) 20)
           (numbered_turns 1 50)
    /\ (length (numbered_turns 1 50) = 50%nat ->
        length (buffer self' 7) = 20%nat
        /\ buffer self' 7 = drop 30 (numbered_turns 1 50)).
Proof.
  apply (history_keeps_most_recent_turns
           (fresh_client (Raises (RemoteError "offline"))) 7
           (numbered_turns 1 50)).
  reflexivity.
Defined.

(** C8.  For any client and user, [clear_conversation] returns without
    raising and leaves the user's buffer empty; calling it twice gives
    the same result and the same object as calling it once; every
    reader of the buffer then sees nothing: [conversations.get] gives
    the empty list, the context built from it is empty, and the summary
    is the no-history text. *)
Theorem clear_conversation_empties self user_id :
  exists self',
    clear_conversation user_id self = (Returns tt, self')
    /\ buffer self' user_id = []
    /\ (clear_conversation user_id;; clear_conversation user_id) self
       = clear_conversation user_id self
    /\ get user_id [] self' = (Returns [], self')
    /\ context_of (buffer self' user_id) = []
    /\ get_conversation_summary user_id self'
       = (Returns "No conversation history.", self').
Proof.
  eexists. split; [apply clear_conversation_run|].
  unfold mbind, Py_bind. rewrite !clear_conversation_run.
  unfold get, buffer, get_conversation_summary, contains, getitem,
    mbind, mret, Py_bind, Py_ret.
  destruct (conversations self !! user_id) as [l|] eqn:E; cbn [conversations].
  - rewrite !lookup_insert_eq, insert_insert_eq.
    rewrite bool_decide_eq_true_2 by eauto.
    cbn -[lookup insert]. by rewrite lookup_insert_eq.
  - rewrite !E. rewrite bool_decide_eq_false_2 by (intros [? ?]; done).
    by cbn.
Qed.

Lemma calls_without (A B : Z) cs self1 self2 :
  A <> B ->
  conversations self1 !! B = conversations self2 !! B ->
  exists s1 s2,
    calls cs self1 = (Returns tt, s1)
    /\ calls (filter (fun c => call_user c <> A) cs) self2 = (Returns tt, s2)
    /\ conversations s1 !! B = conversations s2 !! B.
Proof.
  intros HAB. revert self1 self2.
  induction cs as [|c cs IH]; intros self1 self2 Heq.
  - by exists self1, self2.
  - rewrite calls_cons.
    destruct (call_returns c self1) as (t1 & Hc1 & _). rewrite Hc1.
    rewrite filter_cons. case_decide as Hc.
    + rewrite calls_cons.
      destruct (call_returns c self2) as (t2 & Hc2 & _). rewrite Hc2.
      apply IH.
      by rewrite (call_entry _ _ _ _ Hc1), (call_entry _ _ _ _ Hc2), Heq.
    + apply IH. rewrite (call_entry _ _ _ _ Hc1), <-Heq.
      unfold entry_after. rewrite decide_False; [done|].
      intros HB. destruct (decide (call_user c = A)); congruence.
Qed.

(** C9.  Let A and B be distinct users.  A call of
    [add_message_to_history] or [clear_conversation] for A returns and
    leaves the entry of B in [conversations] as it was.  And in any
    interleaving of such calls, for any users, the entry of B at the end
    is the one reached when every call for A is left out: nothing
    appended for A shows up for B, and clearing A does not empty B. *)
Theorem other_users_buffer_untouched (A B : Z) :
  A <> B ->
  (forall c self, call_user c = A ->
     exists self', call c self = (Returns tt, self')
       /\ conversations self' !! B = conversations self !! B)
  /\ (forall cs self,
        exists s1 s2,
          calls cs self = (Returns tt, s1)
          /\ calls (filter (fun c => call_user c <> A) cs) self = (Returns tt, s2)
          /\ conversations s1 !! B = conversations s2 !! B).
Proof.
  intros HAB. split.
  - intros c self Hc.
    destruct (call_returns c self) as (s1 & Hrun & _).
    exists s1. split; [done|].
    rewrite (call_entry _ _ _ _ Hrun). unfold entry_after.
    rewrite decide_False; [done|congruence].
  - intros cs self. by apply calls_without.
Qed.

Lemma other_users_buffer_untouched_witness :
  (forall c self, call_user c = 1 ->
     exists self', call c self = (Returns tt, self')
       /\ conversations self' !! 2 = conversations self !! 2)
  /\ (forall cs self,
        exists s1 s2,
          calls cs self = (Returns tt, s1)
          /\ calls (filter (fun c => call_user c <> 1) cs) self = (Returns tt, s2)
          /\ conversations s1 !! 2 = conversations s2 !! 2).
Proof. apply (other_users_buffer_untouched 1 2). discriminate. Defined.

(** C10.  [clear_conversation] returns without raising for every client
    and user.  For a user with no entry in [conversations] it leaves the
    whole object as it was, so no empty entry is created; for the same
    user [add_message_to_history] creates the entry, which then holds
    just the new turn. *)
Theorem clear_conversation_absent_user self user_id :
  (exists self', clear_conversation user_id self = (Returns tt, self'))
  /\ (conversations self !! user_id = None ->
      clear_conversation user_id self = (Returns tt, self)
      /\ forall r c, exists self',
           add_message_to_history user_id r c self = (Returns tt, self')
           /\ conversations self' !! user_id
              = Some [{| role := r; content := c |}]).
Proof.
  split; [rewrite clear_conversation_run; eauto|].
  intros Habsent. split.
  - by rewrite clear_conversation_run, Habsent.
  - intros r c. rewrite add_message_to_history_run.
    eexists. split; [done|]. cbn [conversations].
    rewrite lookup_insert_eq, (buffer_absent _ _ Habsent). done.
Qed.

Lemma clear_conversation_absent_user_witness :
  (exists self',
     clear_conversation 5 (fresh_client (Raises (RemoteError "offline")))
     = (Returns tt, self'))
  /\ (clear_conversation 5 (fresh_client (Raises (RemoteError "offline")))
      = (Returns tt, fresh_client (Raises (RemoteError "offline")))
      /\ forall r c, exists self',
           add_message_to_history 5 r c
             (fresh_client (Raises (RemoteError "offline")))
           = (Returns tt, self')
           /\ conversations self' !! 5 = Some [{| role := r; content := c |}]).
Proof.
  destruct (clear_conversation_absent_user
              (fresh_client (Raises (RemoteError "offline"))) 5) as [H1 H2].
  split; [exact H1|]. apply H2. reflexivity.
Defined.
End store_claims.

(** ** [GeminiClient.generate_response] *)

Section generate.
Import GeminiClient.
Implicit Types (self : GeminiClient.t) (user_id : Z) (l : list Turn).

(** The whole method in closed form: the user turn is stored, one
    request goes out, and the reply decides the rest. *)
Lemma generate_response_run self user_id message :
  let buf :=
    most_recent 20
      (buffer self user_id ++ [{| role := "user"; content := message |}]) in
  let req := (context_of buf, message) in
  let m' := {| transcript := transcript (model self) ++ [req];
               answer := answer (model self) |} in
  let failed e :=
    (Returns ("Sorry, I encountered an error: " +:+ str e),
     {| model := m';
        conversations := <[user_id := buf]> (conversations self) |}) in
  generate_response user_id message self
  = match answer (model self) (transcript (model self)) req with
    | Raises e => failed e
    | Returns response =>
        match text response with
        | Raises e => failed e
        | Returns reply =>
            (Returns reply,
             {| model := m';
                conversations :=
                  <[user_id := most_recent 20
                                 (buf ++ [{| role := "model"; content := reply |}])]>
                    (conversations self) |})
        end
    end.
Proof.
  intros buf req m' failed.
  unfold generate_response, try_except, mbind, Py_bind.
  rewrite add_message_to_history_run. fold buf.
  unfold get, on_model, start_chat, send_message_async, get_text, mret, Py_ret.
  cbn [model conversations history]. rewrite lookup_insert_eq.
  cbn [default from_option id]. fold req.
  destruct (answer (model self) (transcript (model self)) req)
    as [response|e]; [|done].
  destruct (text response) as [reply|e]; [|done].
  rewrite add_message_to_history_run. unfold buffer at 1.
  cbn [model conversations]. rewrite lookup_insert_eq, insert_insert_eq.
  done.
Qed.

Lemma most_recent_snoc {A} (n : nat) (l : list A) (x : A) :
  most_recent (S n) (l ++ [x]) = most_recent n l ++ [x].
Proof.
  unfold most_recent. rewrite length_app. cbn [length].
  replace (length l + 1 - S n)%nat with (length l - n)%nat by lia.
  apply drop_app_le. lia.
Qed.

Lemma context_of_snoc l (x : Turn) : context_of (l ++ [x]) = l.
Proof.
  unfold context_of. rewrite slice_init_snoc. by destruct l.
Qed.

(** C5.  In [generate_response] the user turn is appended first; the
    buffer then is some [ctx] followed by that turn.  Exactly one request
    is put on the wire by the call, and it carries [ctx] as the context,
    that is the buffer without the turn just appended, and the current
    message as the new turn. *)
Theorem context_is_buffer_without_current_turn self user_id message :
  exists s1 ctx out s2,
    add_message_to_history user_id "user" message self = (Returns tt, s1)
    /\ buffer s1 user_id = ctx ++ [{| role := "user"; content := message |}]
    /\ generate_response user_id message self = (out, s2)
    /\ transcript (model s2) = transcript (model self) ++ [(ctx, message)].
Proof.
  rewrite add_message_to_history_run, generate_response_run.
  change 20%nat with (S 19). rewrite most_recent_snoc, context_of_snoc.
  eexists _, (most_recent 19 (buffer self user_id)).
  destruct (answer _ _ _) as [response|e];
    [destruct (text response) as [reply|e]|];
    eexists _, _; (split; [done|]); (split; [by rewrite buffer_insert|]);
    by split.
Qed.

(** C2.  Let [s1] be the client right after the user turn was appended.
    When the remote call for the request built from it fails with [e],
    [generate_response] returns (it does not raise) the text
    "Sorry, I encountered an error: " followed by [str e]; the
    conversations it leaves are those of [s1], so the last entry of the
    user's buffer is the user turn with the given message and no model
    turn follows it. *)
Theorem failed_call_returns_apology self user_id message e s1 :
  add_message_to_history user_id "user" message self = (Returns tt, s1) ->
  remote_call_fails (model s1) (context_of (buffer s1 user_id), message) e ->
  exists s2,
    generate_response user_id message self
    = (Returns ("Sorry, I encountered an error: " +:+ str e), s2)
    /\ conversations s2 = conversations s1
    /\ last (buffer s2 user_id) = Some {| role := "user"; content := message |}.
Proof.
  rewrite add_message_to_history_run. intros [= <-].
  rewrite buffer_insert. cbn [model conversations].
  intros Hfail. rewrite generate_response_run. cbn zeta.
  assert (last (most_recent 20
                  (buffer self user_id
                     ++ [{| role := "user"; content := message |}]))
          = Some {| role := "user"; content := message |}) as Hlast.
  { change 20%nat with (S 19). by rewrite most_recent_snoc, last_snoc. }
  destruct Hfail as [-> | (response & -> & ->)];
    eexists; (split; [done|]); rewrite buffer_insert; by split.
Qed.

Lemma failed_call_returns_apology_witness :
  exists s2,
    generate_response 42 "hi" (fresh_client (Raises (RemoteError "boom")))
    = (Returns ("Sorry, I encountered an error: " +:+ str (RemoteError "boom")), s2)
    /\ conversations s2
       = conversations
           (add_message_to_history 42 "user" "hi"
              (fresh_client (Raises (RemoteError "boom")))).2
    /\ last (buffer s2 42) = Some {| role := "user"; content := "hi" |}.
Proof.
  apply (failed_call_returns_apology
           (fresh_client (Raises (RemoteError "boom"))) 42 "hi"
           (RemoteError "boom")
           (add_message_to_history 42 "user" "hi"
              (fresh_client (Raises (RemoteError "boom")))).2).
  - vm_compute. reflexivity.
  - left. reflexivity.
Defined.

(** C3, against the claim as stated: the remote call fails with a quota
    error, and yet [generate_response] does not end in any raised
    error. *)
Lemma failed_call_is_not_raised :
  remote_call_fails
    (model (fresh_client (Raises (RemoteError "quota exceeded"))))
    ([], "hi") (RemoteError "quota exceeded")
  /\ ~ exists e s,
        generate_response 42 "hi"
          (fresh_client (Raises (RemoteError "quota exceeded")))
        = (Raises e, s).
Proof.
  split; [by left|].
  intros (e & s & H). rewrite generate_response_run in H.
  cbn in H. discriminate H.
Qed.

(** C3, amended.  [generate_response] never raises: for every client,
    user and message it returns a string.  A failure of the remote call
    is reported in that ordinary return value, which is then
    "Sorry, I encountered an error: " followed by the upstream error
    text. *)
Theorem generate_response_always_returns self user_id message :
  exists reply s2,
    generate_response user_id message self = (Returns reply, s2)
    /\ forall e s1,
         add_message_to_history user_id "user" message self = (Returns tt, s1) ->
         remote_call_fails (model s1) (context_of (buffer s1 user_id), message) e ->
         reply = "Sorry, I encountered an error: " +:+ str e.
Proof.
  rewrite generate_response_run, add_message_to_history_run. cbn zeta.
  set (buf := most_recent 20 _).
  assert (forall e s1 (P : Prop),
    (Returns tt,
     {| model := model self;
        conversations := <[user_id := buf]> (conversations self) |})
    = (Returns tt, s1) ->
    remote_call_fails (model s1) (context_of (buffer s1 user_id), message) e ->
    (remote_call_fails (model self) (context_of buf, message) e -> P) -> P)
    as Hreq.
  { intros e s1 P [= <-]. rewrite buffer_insert. cbn [model]. auto. }
  destruct (answer _ _ _) as [response|e0] eqn:Ha;
    [destruct (text response) as [reply|e0] eqn:Ht|];
    eexists _, _; (split; [done|]); intros e s1 Hs1 Hfail;
    apply (Hreq e s1 _ Hs1 Hfail); clear Hreq Hs1 Hfail;
    intros [Hf | (r & Hf & Hr)]; congruence.
Qed.

Lemma generate_response_always_returns_witness :
  exists reply s2,
    generate_response 42 "hi"
      (fresh_client (Raises (RemoteError "quota exceeded")))
    = (Returns reply, s2)
    /\ reply = "Sorry, I encountered an error: quota exceeded".
Proof.
  destruct (generate_response_always_returns
              (fresh_client (Raises (RemoteError "quota exceeded")))
              42 "hi") as (reply & s2 & Hrun & Hfail).
  exists reply, s2. split; [exact Hrun|].
  apply (Hfail (RemoteError "quota exceeded")
           (add_message_to_history 42 "user" "hi"
              (fresh_client (Raises (RemoteError "quota exceeded")))).2).
  - vm_compute. reflexivity.
  - left. reflexivity.
Defined.
End generate.

(** ** [GeminiClient.get_conversation_summary] *)

Section summary.
Import GeminiClient.
Implicit Types (self : GeminiClient.t) (user_id : Z) (l : list Turn).

Lemma summary_line_acc (acc : string) (entry : Z * Turn) :
  summary_line acc entry = acc +:+ summary_line EmptyString entry.
Proof. by destruct entry. Qed.

(** The loop adds one line per entry to what it started with. *)
Lemma foldl_summary_line (entries : list (Z * Turn)) (acc : string) :
  foldl summary_line acc entries
  = acc +:+ joined (summary_line EmptyString <$> entries).
Proof.
  revert acc. induction entries as [|e entries IH]; intros acc;
    cbn [foldl fmap list_fmap joined].
  - by rewrite append_empty_r.
  - by rewrite IH, (summary_line_acc acc), append_assoc.
Qed.

Lemma enumerate_lookup {A} (l : list A) (start : Z) (i : nat) :
  enumerate l start !! i = (fun x => (start + Z.of_nat i, x)) <$> l !! i.
Proof.
  revert start i. induction l as [|x l IH]; intros start [|i]; cbn; try done.
  - by rewrite Z.add_0_r.
  - rewrite IH. destruct (l !! i); cbn; [|done]. do 2 f_equal. lia.
Qed.

Lemma length_enumerate {A} (l : list A) (start : Z) :
  length (enumerate l start) = length l.
Proof.
  revert start. induction l as [|x l IH]; intros start; cbn; [done|].
  by rewrite IH.
Qed.

Lemma get_conversation_summary_run self user_id l :
  conversations self !! user_id = Some l -> l <> [] ->
  get_conversation_summary user_id self
  = (Returns
       ("Conversation has " +:+ pretty (Z.of_nat (length l))
          +:+ " messages:" +:+ newline
          +:+ joined (summary_line EmptyString
                        <$> enumerate (most_recent 5 l) 1)),
     self).
Proof.
  intros Hl Hne.
  unfold get_conversation_summary, contains, getitem, mbind, mret,
    Py_bind, Py_ret.
  assert (truthy l = true) as Htrue by (by destruct l).
  repeat first
    [ rewrite Hl | rewrite Htrue | rewrite bool_decide_eq_true_2 by eauto
    | progress cbn [negb] | progress cbv beta iota ].
  change (-5) with (- Z.of_nat 5). rewrite slice_suffix by lia.
  fold (most_recent 5 l).
  by rewrite foldl_summary_line, !append_assoc.
Qed.

(** C6.  When the user's buffer is empty or absent, the summary is the
    text "No conversation history.".  When the buffer holds [N > 0]
    turns, the summary is the line "Conversation has N messages:"
    followed by exactly [min N 5] entries, one for each of the trailing
    turns and in their order; the entry of a turn is its number (from
    1), "You" or "Bot", and the content: unchanged when it has at most
    50 characters, and otherwise its first 50 characters followed by
    "...".  No call raises or changes the client. *)
Theorem summary_shows_count_and_last_five self user_id :
  (buffer self user_id = [] ->
   get_conversation_summary user_id self
   = (Returns "No conversation history.", self))
  /\ (forall l, conversations self !! user_id = Some l -> l <> [] ->
      exists entries : list string,
        get_conversation_summary user_id self
        = (Returns ("Conversation has " +:+ pretty (Z.of_nat (length l))
                      +:+ " messages:" +:+ newline +:+ joined entries),
           self)
        /\ length entries = Nat.min (length l) 5
        /\ forall (i : nat) (msg : Turn),
             most_recent 5 l !! i = Some msg ->
             exists shown,
               entries !! i
               = Some (pretty (Z.of_nat i + 1) +:+ ". "
                         +:+ (if bool_decide (role msg = "user")
                              then "You" else "Bot")
                         +:+ ": " +:+ shown +:+ newline)
               /\ ((String.length (content msg) <= 50)%nat
                     /\ shown = content msg
                   \/ (50 < String.length (content msg))%nat
                     /\ exists head rest,
                          content msg = head +:+ rest
                          /\ String.length head = 50%nat
                          /\ shown = head +:+ "...")).
Proof.
  split.
  - unfold buffer, get_conversation_summary, contains, getitem, mbind,
      mret, Py_bind, Py_ret.
    destruct (conversations self !! user_id) as [l|] eqn:E;
      cbn [default from_option id].
    + intros ->. rewrite bool_decide_eq_true_2 by eauto.
      cbn [negb]. cbv beta iota. by rewrite E.
    + intros _. by rewrite bool_decide_eq_false_2 by (intros [? ?]; done).
  - intros l Hl Hne.
    exists (summary_line EmptyString <$> enumerate (most_recent 5 l) 1).
    split; [by apply get_conversation_summary_run|]. split.
    + by rewrite length_fmap, length_enumerate, most_recent_length.
    + intros i msg Hi.
      rewrite list_lookup_fmap, enumerate_lookup, Hi. cbn [fmap option_fmap option_map].
      unfold summary_line. rewrite (Z.add_comm 1).
      eexists. split; [done|]. unfold len.
      case_bool_decide as Hlen; [right|left]; (split; [lia|]); [|done].
      destruct (str_slice_prefix 50 (content msg)) as (rest & Hsplit & H50);
        [lia|].
      eauto.
Qed.

Lemma summary_shows_count_and_last_five_witness :
  get_conversation_summary 9 chatty_client
  = (Returns "No conversation history.", chatty_client)
  /\ exists entries : list string,
       get_conversation_summary 7 chatty_client
       = (Returns ("Conversation has "
                     +:+ pretty (Z.of_nat (length (numbered_turns 1 7)))
                     +:+ " messages:" +:+ newline +:+ joined entries),
          chatty_client)
       /\ length entries = Nat.min (length (numbered_turns 1 7)) 5.
Proof.
  split.
  - apply (summary_shows_count_and_last_five chatty_client 9). reflexivity.
  - destruct (proj2 (summary_shows_count_and_last_five chatty_client 7)
                (numbered_turns 1 7)) as (entries & Hrun & Hlen & _).
    + reflexivity.
    + discriminate.
    + exists entries. split; [exact Hrun | exact Hlen].
Defined.
End summary.

(** ** Splitting a long reply in [bot.handle_message] *)

Section chunks.
Import bot.

(** Cutting a list in consecutive pieces of [step] elements: enough
    pieces give the list back. *)
Lemma concat_pieces {A} (step : nat) (n : nat) (l : list A) :
  (length l <= n * step)%nat ->
  concat ((fun k => take step (drop (k * step) l)) <$> seq 0 n) = l.
Proof.
  revert l. induction n as [|n IH]; intros l Hlen.
  - destruct l; [done|]. cbn in Hlen. lia.
  - cbn [seq fmap list_fmap concat]. rewrite <-fmap_S_seq, <-list_fmap_compose.
    cbn [Nat.mul]. rewrite drop_0.
    transitivity (take step l ++ drop step l); [|apply take_drop]. f_equal.
    rewrite <-(IH (drop step l)) by (rewrite length_drop; lia).
    f_equal. apply list_fmap_ext. intros _ k _. cbn.
    by rewrite drop_drop.
Qed.

Lemma joined_string_of_list (pieces : list (list ascii)) :
  joined (String.string_of_list_ascii <$> pieces)
  = String.string_of_list_ascii (concat pieces).
Proof.
  induction pieces as [|p ps IH]; [done|].
  cbn [fmap list_fmap joined concat].
  by rewrite string_of_list_app, <-IH.
Qed.

(** The comprehension [[s[i:i+n] for i in range(0, len(s), n)]] for any
    positive [n]. *)
Lemma comprehension_pieces (n : Z) (s : string) :
  0 < n ->
  (fun i => str_slice (Some i) (Some (i + n)) s) <$> range 0 (len s) n
  = String.string_of_list_ascii <$>
      ((fun k => take (Z.to_nat n)
                   (drop (k * Z.to_nat n) (String.list_ascii_of_string s)))
         <$> seq 0 (Z.to_nat ((len s + n - 1) / n))).
Proof.
  intros Hn. unfold range. rewrite <-!list_fmap_compose.
  replace (len s - 0 + n - 1) with (len s + n - 1) by lia.
  apply list_fmap_ext. intros _ k _. cbn. unfold str_slice. f_equal.
  replace (0 + Z.of_nat k * n) with (Z.of_nat (k * Z.to_nat n)) by lia.
  rewrite <-(Z2Nat.id n) at 2 by lia.
  apply slice_window.
Qed.

Lemma pieces_general (n : Z) (s : string) :
  0 < n ->
  let pieces :=
    (fun i => str_slice (Some i) (Some (i + n)) s) <$> range 0 (len s) n in
  joined pieces = s /\ Forall (fun c => len c <= n) pieces.
Proof.
  intros Hn pieces. subst pieces. rewrite comprehension_pieces by done.
  split.
  - rewrite joined_string_of_list, concat_pieces.
    + apply String.string_of_list_ascii_of_string.
    + rewrite length_list_of_string.
      assert (0 <= len s) as Hlen by (unfold len; lia).
      pose proof (Z.div_mod (len s + n - 1) n ltac:(lia)) as Hdiv.
      pose proof (Z.mod_pos_bound (len s + n - 1) n Hn) as Hmod.
      set (q := (len s + n - 1) / n) in *.
      assert (0 <= q) by (subst q; apply Z.div_pos; lia).
      rewrite <-Z2Nat.inj_mul by lia. rewrite (Z.mul_comm q n).
      unfold len in *. lia.
  - rewrite <-list_fmap_compose. apply Forall_fmap, Forall_forall.
    intros k _. cbn. unfold len.
    rewrite length_string_of_list, length_take. lia.
Qed.

Lemma send_all_run (xs : list string) (b : bot.t) :
  send_all xs b
  = (Returns tt,
     {| gemini_client := gemini_client b; delivered := delivered b ++ xs |}).
Proof.
  revert b. induction xs as [|x xs IH]; intros b.
  - cbn. rewrite app_nil_r. by destruct b.
  - cbn [send_all]. unfold mbind, Py_bind, send at 1.
    rewrite IH. cbn. by rewrite <-app_assoc.
Qed.

(** C7.  Whenever [generate_response] hands [handle_message] a response
    of more than [MAX_MESSAGE_LENGTH = 4096] characters, the texts that
    [handle_message] delivers are the chunks of the comprehension, in
    order; each chunk has at most 4096 characters, and the chunks written
    one after the other are the response, character for character.  And
    [generate_response] itself returns the reply of the service whole:
    when the service answers with a text, that text is the return
    value. *)
Theorem long_reply_is_split_in_order :
  (forall (b : bot.t) user_id message response c',
     GeminiClient.generate_response user_id message (gemini_client b)
     = (Returns response, c') ->
     len response > config.MAX_MESSAGE_LENGTH ->
     handle_message user_id message b
     = (Returns tt,
        {| gemini_client := c';
           delivered := delivered b ++ chunks_of response |})
     /\ Forall (fun c => len c <= config.MAX_MESSAGE_LENGTH) (chunks_of response)
     /\ joined (chunks_of response) = response)
  /\ (forall (self : GeminiClient.t) user_id message s1 response reply,
       GeminiClient.add_message_to_history user_id "user" message self
       = (Returns tt, s1) ->
       answer (GeminiClient.model s1) (transcript (GeminiClient.model s1))
         (GeminiClient.context_of (GeminiClient.buffer s1 user_id), message)
       = Returns response ->
       text response = Returns reply ->
       exists s2,
         GeminiClient.generate_response user_id message self
         = (Returns reply, s2)).
Proof.
  split.
  - intros b user_id message response c' Hgen Hlong.
    destruct (pieces_general config.MAX_MESSAGE_LENGTH response) as [Hj Hall];
      [done|].
    split; [|by split].
    unfold handle_message, try_except, mbind, Py_bind, on_client.
    rewrite Hgen, bool_decide_eq_true_2 by done.
    by rewrite send_all_run.
  - intros self user_id message s1 response reply.
    rewrite add_message_to_history_run. intros [= <-].
    rewrite buffer_insert. cbn [GeminiClient.model].
    intros Hanswer Htext.
    rewrite generate_response_run. cbn zeta. rewrite Hanswer, Htext. eauto.
Qed.

Lemma long_reply_is_split_in_order_witness :
  (handle_message 1 "hi" verbose_bot
   = (Returns tt,
      {| gemini_client :=
           (GeminiClient.generate_response 1 "hi" (gemini_client verbose_bot)).2;
         delivered := delivered verbose_bot ++ chunks_of (letters 4100) |})
   /\ Forall (fun c => len c <= config.MAX_MESSAGE_LENGTH)
        (chunks_of (letters 4100))
   /\ joined (chunks_of (letters 4100)) = letters 4100)
  /\ exists s2,
       GeminiClient.generate_response 1 "hi" (gemini_client verbose_bot)
       = (Returns (letters 4100), s2).
Proof.
  destruct long_reply_is_split_in_order as [Hsplit Hwhole].
  split.
  - apply (Hsplit verbose_bot 1 "hi" (letters 4100)).
    + vm_compute. reflexivity.
    + vm_compute. reflexivity.
  - apply (Hwhole (gemini_client verbose_bot) 1 "hi"
             (GeminiClient.add_message_to_history 1 "user" "hi"
                (gemini_client verbose_bot)).2
             {| text := Returns (letters 4100) |}).
    + vm_compute. reflexivity.
    + reflexivity.
    + reflexivity.
Defined.
End chunks.

(** ** [terminal_chat.generate_response] *)

Section terminal.
Import terminal_chat.

(** The function in closed form.  One entry is popped after the user
    turn when the list has grown past 20; the model turn is appended
    after that, and nothing is popped then. *)
Lemma terminal_generate_response_run (message : string) (g : terminal_chat.t) :
  let l1 := conversation_history g ++ [{| role := "user"; content := message |}] in
  let l2 := if bool_decide (Z.of_nat (length l1) > 20) then tail l1 else l1 in
  let req := (slice None (Some (-1)) l2, message) in
  let m' := {| transcript := transcript (model g) ++ [req];
               answer := answer (model g) |} in
  let failed e :=
    (Returns ("Sorry, I encountered an error: " +:+ str e),
     {| model := m'; conversation_history := l2 |}) in
  generate_response message g
  = match answer (model g) (transcript (model g)) req with
    | Raises e => failed e
    | Returns response =>
        match text response with
        | Raises e => failed e
        | Returns reply =>
            (Returns reply,
             {| model := m';
                conversation_history :=
                  l2 ++ [{| role := "model"; content := reply |}] |})
        end
    end.
Proof.
  intros l1 l2 req m' failed.
  unfold generate_response, try_except, mbind, Py_bind, append at 1,
    read_history, when, pop0, on_model, start_chat, send_message_async,
    get_text, mret, Py_ret.
  cbn [model conversation_history]. fold l1.
  assert (exists x l', l1 = x :: l') as (x & l' & Hl1).
  { subst l1. destruct (conversation_history g); cbn; eauto. }
  subst l2 req m' failed. cbv zeta.
  case_bool_decide as Hlen; rewrite Hl1;
    cbn [model conversation_history history tail];
    destruct (answer _ _ _) as [response|e]; try done;
    unfold append; by destruct (text response).
Qed.

Lemma length_tail_snoc {A} (l : list A) (x : A) :
  length (tail (l ++ [x])) = length l.
Proof. destruct l; cbn; [done|]. rewrite length_app. cbn. lia. Qed.

(** Once the history holds 20 entries or more, every answered message
    makes it one entry longer. *)
Lemma terminal_history_grows (messages : list string) (g : terminal_chat.t) :
  always_answers (model g) ->
  (20 <= length (conversation_history g))%nat ->
  exists replies g',
    chat_loop messages g = (Returns replies, g')
    /\ length (conversation_history g')
       = (length (conversation_history g) + length messages)%nat.
Proof.
  revert g. induction messages as [|m ms IH]; intros g Hans Hlen.
  - exists [], g. split; [done|]. cbn. lia.
  - cbn [chat_loop]. unfold mbind, Py_bind.
    rewrite terminal_generate_response_run. cbv zeta.
    destruct (Hans (transcript (model g))
                (slice None (Some (-1))
                   (if bool_decide
                         (Z.of_nat (length (conversation_history g
                                              ++ [{| role := "user"; content := m |}])) > 20)
                    then tail (conversation_history g
                                 ++ [{| role := "user"; content := m |}])
                    else conversation_history g
                           ++ [{| role := "user"; content := m |}]), m))
      as (response & reply & -> & ->).
    rewrite bool_decide_eq_true_2 by (rewrite length_app; cbn; lia).
    match goal with |- context [chat_loop ms ?g1] => set (g1' := g1) end.
    destruct (IH g1') as (replies & g' & Hrun & Hlen').
    { intros received req. apply Hans. }
    { subst g1'. cbn [conversation_history].
      rewrite length_app, length_tail_snoc. lia. }
    rewrite Hrun. exists (reply :: replies), g'. split; [done|].
    rewrite Hlen'. subst g1'. cbn [conversation_history].
    rewrite length_app, length_tail_snoc. cbn. lia.
Qed.

(** C4, on the code: eleven answered messages from the empty history
    leave 21 entries in [conversation_history], one more than the cap of
    20 that the claim states. *)
Theorem terminal_history_passes_twenty :
  exists replies g,
    chat_loop (replicate 11 "hi")
      (fresh_terminal (Returns {| text := Returns "hello" |}))
    = (Returns replies, g)
    /\ length (conversation_history g) = 21%nat.
Proof. eexists _, _. split; [vm_compute; reflexivity|]. reflexivity. Qed.
End terminal.

(** ** The scenarios of the specification, run on the code *)

Section scenarios.
Import GeminiClient.

(** 25 user/model pairs appended for one user: turns 31 to 50 remain. *)
Example scenario_fifty_turns :
  buffer (calls (appends 7 (numbered_turns 1 50))
            (fresh_client (Raises (RemoteError "offline")))).2 7
  = numbered_turns 31 20.
Proof. vm_compute. reflexivity. Qed.

(** [generate_response(42, "hi")] in front of a failing service. *)
Example scenario_failed_call :
  let '(r, s) := generate_response 42 "hi"
                   (fresh_client (Raises (RemoteError "quota exceeded"))) in
  r = Returns "Sorry, I encountered an error: quota exceeded"
  /\ buffer s 42 = [{| role := "user"; content := "hi" |}]
  /\ transcript (model s) = [([], "hi")].
Proof. vm_compute. repeat split. Qed.

(** Two users appending in turn keep separate buffers. *)
Example scenario_two_users :
  let s := (calls [AddMessage 1 "user" "a1"; AddMessage 2 "user" "b1";
                   AddMessage 1 "model" "a2"; AddMessage 2 "model" "b2"]
              (fresh_client (Raises (RemoteError "offline")))).2 in
  buffer s 1 = [{| role := "user"; content := "a1" |};
                {| role := "model"; content := "a2" |}]
  /\ buffer s 2 = [{| role := "user"; content := "b1" |};
                  {| role := "model"; content := "b2" |}].
Proof. vm_compute. split; reflexivity. Qed.

(** A summary of seven turns lists the last five, numbered from 1. *)
Example scenario_summary_of_seven :
  (get_conversation_summary 7 chatty_client).1
  = Returns ("Conversation has 7 messages:" +:+ newline
               +:+ "1. You: turn 3" +:+ newline
               +:+ "2. Bot: turn 4" +:+ newline
               +:+ "3. You: turn 5" +:+ newline
               +:+ "4. Bot: turn 6" +:+ newline
               +:+ "5. You: turn 7" +:+ newline).
Proof. vm_compute. reflexivity. Qed.

(** A content of sixty characters is cut after fifty. *)
Example scenario_summary_cuts_long_content :
  (get_conversation_summary 8 chatty_client).1
  = Returns ("Conversation has 1 messages:" +:+ newline
               +:+ "1. You: 123456789 123456789 123456789 123456789 123456789 ..."
               +:+ newline).
Proof. vm_compute. reflexivity. Qed.

(** A reply of 4100 letters is delivered as 4096 letters and then 4. *)
Example scenario_two_chunks :
  bot.delivered (bot.handle_message 1 "hi" verbose_bot).2
  = [letters 4096; letters 4].
Proof. vm_compute. reflexivity. Qed.
End scenarios.


(** * Further properties *)

(** ** More on [GeminiClient.generate_response] *)

Section generate_more.
Import GeminiClient.
Implicit Types (self : GeminiClient.t) (user_id : Z) (l : list Turn).

Lemma most_recent_most_recent {A} (n m : nat) (l : list A) :
  (n <= m)%nat -> most_recent n (most_recent m l) = most_recent n l.
Proof.
  intros Hnm. unfold most_recent. rewrite drop_drop, length_drop.
  f_equal. lia.
Qed.

Lemma most_recent_nonempty {A} (n : nat) (l : list A) (x : A) :
  most_recent (S n) (l ++ [x]) <> [].
Proof. rewrite most_recent_snoc. by destruct (most_recent n l). Qed.

(** The context of the request in terms of the buffer before the call. *)
Lemma context_of_recent l (x : Turn) :
  context_of (most_recent 20 (l ++ [x])) = most_recent 19 l.
Proof.
  change 20%nat with (S 19). by rewrite most_recent_snoc, context_of_snoc.
Qed.

Lemma generate_response_returns self user_id message :
  exists reply s2,
    generate_response user_id message self = (Returns reply, s2)
    /\ model s2
       = {| transcript :=
              transcript (model self)
                ++ [(most_recent 19 (buffer self user_id), message)];
            answer := answer (model self) |}
    /\ (forall v, v <> user_id ->
          conversations s2 !! v = conversations self !! v)
    /\ (buffer s2 user_id
        = most_recent 20
            (buffer self user_id ++ [{| role := "user"; content := message |}])
        \/ buffer s2 user_id
           = most_recent 20
               (buffer self user_id
                  ++ [{| role := "user"; content := message |};
                      {| role := "model"; content := reply |}])).
Proof.
  rewrite generate_response_run. cbn zeta. rewrite context_of_recent.
  destruct (answer _ _ _) as [response|e];
    [destruct (text response) as [reply|e]|];
    eexists _, _; (split; [done|]); cbn [model conversations];
    (split; [done|]);
    (split; [by intros v Hv; rewrite lookup_insert_ne|]);
    rewrite buffer_insert; [right|left|left]; try done.
  by rewrite most_recent_app, <-app_assoc.
Qed.

(** A call that the service answers with a text. *)
Lemma generate_response_answered self user_id message response reply :
  answer (model self) (transcript (model self))
    (most_recent 19 (buffer self user_id), message) = Returns response ->
  text response = Returns reply ->
  exists s2,
    generate_response user_id message self = (Returns reply, s2)
    /\ model s2
       = {| transcript :=
              transcript (model self)
                ++ [(most_recent 19 (buffer self user_id), message)];
            answer := answer (model self) |}
    /\ buffer s2 user_id
       = most_recent 20
           (buffer self user_id
              ++ [{| role := "user"; content := message |};
                  {| role := "model"; content := reply |}]).
Proof.
  intros Hanswer Htext.
  rewrite generate_response_run. cbn zeta.
  rewrite context_of_recent, Hanswer, Htext.
  eexists. split; [done|]. split; [done|].
  by rewrite buffer_insert, most_recent_app, <-app_assoc.
Qed.

(** X1.  Whatever the user's buffer held before and whether or not the
    remote call succeeds, after [generate_response] the buffer of that
    user holds at least one and at most 20 turns, and the entry of every
    other user is as it was. *)
Theorem generate_response_keeps_the_cap self user_id message :
  exists out s2,
    generate_response user_id message self = (out, s2)
    /\ (1 <= length (buffer s2 user_id) <= 20)%nat
    /\ forall v, v <> user_id ->
         conversations s2 !! v = conversations self !! v.
Proof.
  destruct (generate_response_returns self user_id message)
    as (reply & s2 & Hrun & _ & Hframe & Hbuf).
  exists (Returns reply), s2. split; [done|]. split; [|done].
  destruct Hbuf as [-> | ->]; rewrite most_recent_length, length_app;
    cbn [length]; lia.
Qed.

(** X2.  The request that [generate_response] sends carries, as context,
    the 19 most recent turns that were stored for the user before the
    call (all of them when there are fewer), and the message itself; no
    other request is sent. *)
Theorem request_carries_recent_history self user_id message :
  exists out s2,
    generate_response user_id message self = (out, s2)
    /\ transcript (model s2)
       = transcript (model self)
           ++ [(most_recent 19 (buffer self user_id), message)]
    /\ (length (most_recent 19 (buffer self user_id)) <= 19)%nat.
Proof.
  destruct (generate_response_returns self user_id message)
    as (reply & s2 & Hrun & Hmodel & _).
  exists (Returns reply), s2. split; [done|]. rewrite Hmodel.
  split; [done|]. rewrite most_recent_length. lia.
Qed.

(** X3.  When the service answers the request with a text, that text is
    returned, and the buffer becomes the old buffer followed by the user
    turn and the model turn, in this order, cut to its last 20 turns. *)
Theorem answered_call_stores_both_turns self user_id message response reply :
  answer (model self) (transcript (model self))
    (most_recent 19 (buffer self user_id), message) = Returns response ->
  text response = Returns reply ->
  exists s2,
    generate_response user_id message self = (Returns reply, s2)
    /\ buffer s2 user_id
       = most_recent 20
           (buffer self user_id
              ++ [{| role := "user"; content := message |};
                  {| role := "model"; content := reply |}]).
Proof.
  intros Hanswer Htext.
  destruct (generate_response_answered _ _ _ _ _ Hanswer Htext)
    as (s2 & Hrun & _ & Hbuf).
  by exists s2.
Qed.

Lemma answered_call_stores_both_turns_witness :
  exists s2,
    generate_response 42 "hi" echo_client = (Returns "[hi]", s2)
    /\ buffer s2 42
       = most_recent 20
           (buffer echo_client 42
              ++ [{| role := "user"; content := "hi" |};
                  {| role := "model"; content := "[hi]" |}]).
Proof.
  apply (answered_call_stores_both_turns echo_client 42 "hi"
           {| text := Returns "[hi]" |} "[hi]").
  - reflexivity.
  - reflexivity.
Defined.

(** X4.  A message whose remote call failed stays in the history: the
    next request for the same user carries it as the last turn of its
    context, although no reply to it was ever stored. *)
Theorem failed_message_is_in_next_context self user_id m1 m2 e :
  remote_call_fails (model self)
    (most_recent 19 (buffer self user_id), m1) e ->
  exists r1 s1 out s2 ctx,
    generate_response user_id m1 self = (Returns r1, s1)
    /\ generate_response user_id m2 s1 = (out, s2)
    /\ transcript (model s2)
       = transcript (model self)
           ++ [(most_recent 19 (buffer self user_id), m1); (ctx, m2)]
    /\ last ctx = Some {| role := "user"; content := m1 |}.
Proof.
  intros Hfail.
  assert (exists s1,
    generate_response user_id m1 self
    = (Returns ("Sorry, I encountered an error: " +:+ str e), s1)
    /\ model s1
       = {| transcript :=
              transcript (model self)
                ++ [(most_recent 19 (buffer self user_id), m1)];
            answer := answer (model self) |}
    /\ buffer s1 user_id
       = most_recent 20
           (buffer self user_id ++ [{| role := "user"; content := m1 |}]))
    as (s1 & Hrun1 & Hmodel1 & Hbuf1).
  { rewrite generate_response_run. cbn zeta. rewrite context_of_recent.
    destruct Hfail as [-> | (response & -> & ->)];
      eexists; (split; [done|]); (split; [done|]); by rewrite buffer_insert. }
  destruct (generate_response_returns s1 user_id m2)
    as (r2 & s2 & Hrun2 & Hmodel2 & _).
  eexists _, s1, (Returns r2), s2, (most_recent 19 (buffer s1 user_id)).
  split; [done|]. split; [done|]. split.
  - rewrite Hmodel2, Hmodel1. cbn [transcript]. by rewrite <-app_assoc.
  - rewrite Hbuf1, most_recent_most_recent by lia.
    change 19%nat with (S 18). by rewrite most_recent_snoc, last_snoc.
Qed.

Lemma failed_message_is_in_next_context_witness :
  exists r1 s1 out s2 ctx,
    generate_response 42 "first"
      (fresh_client (Raises (RemoteError "quota exceeded"))) = (Returns r1, s1)
    /\ generate_response 42 "second" s1 = (out, s2)
    /\ transcript (model s2)
       = transcript (model (fresh_client (Raises (RemoteError "quota exceeded"))))
           ++ [(most_recent 19
                  (buffer (fresh_client (Raises (RemoteError "quota exceeded"))) 42),
                "first");
               (ctx, "second")]
    /\ last ctx = Some {| role := "user"; content := "first" |}.
Proof.
  apply (failed_message_is_in_next_context
           (fresh_client (Raises (RemoteError "quota exceeded"))) 42
           "first" "second" (RemoteError "quota exceeded")).
  left. reflexivity.
Defined.

(** X5.  After [clear_conversation], the next [generate_response] of the
    user sends its message with an empty context, whatever was stored
    before; the buffer then starts with that message. *)
Theorem cleared_user_starts_without_context self user_id message :
  exists out s2,
    (clear_conversation user_id;; generate_response user_id message) self
    = (out, s2)
    /\ transcript (model s2) = transcript (model self) ++ [([], message)]
    /\ head (buffer s2 user_id) = Some {| role := "user"; content := message |}
    /\ (length (buffer s2 user_id) <= 2)%nat.
Proof.
  unfold mbind, Py_bind. rewrite clear_conversation_run.
  set (s1 := match conversations self !! user_id with
             | Some _ => _ | None => self end).
  assert (buffer s1 user_id = [] /\ model s1 = model self) as [Hbuf Hmodel].
  { subst s1. destruct (conversations self !! user_id) as [l|] eqn:E.
    - by rewrite buffer_insert.
    - by rewrite (buffer_absent _ _ E). }
  destruct (generate_response_returns s1 user_id message)
    as (reply & s2 & Hrun & Hmodel2 & _ & Hres).
  exists (Returns reply), s2. split; [done|].
  rewrite Hmodel2, Hbuf, Hmodel. cbn [transcript]. split; [done|].
  rewrite Hbuf in Hres.
  destruct Hres as [-> | ->]; cbn; split; (done || lia).
Qed.

Lemma always_answers_answer (m : GenerativeModel) (sent : list Request) :
  always_answers m ->
  always_answers {| transcript := sent; answer := answer m |}.
Proof. intros H received req. apply H. Qed.

(** X6.  In front of a service that always answers, a run of messages of
    one user whose buffer is within the cap returns one reply per message,
    and the dialogue is stored in order: the buffer at the end is the old
    buffer followed by each message and its reply, cut to its last 20
    turns. *)
Theorem dialogue_is_stored_in_order self user_id (messages : list string) :
  always_answers (model self) ->
  (length (buffer self user_id) <= 20)%nat ->
  exists replies s2,
    dialogue.run_gemini (dialogue.Say user_id <$> messages) self
    = (Returns replies, s2)
    /\ length replies = length messages
    /\ buffer s2 user_id
       = most_recent 20 (buffer self user_id ++ exchanges messages replies).
Proof.
  revert self. induction messages as [|m ms IH]; intros self Hans Hcap.
  - exists [], self. split; [done|]. split; [done|].
    cbn [exchanges]. by rewrite app_nil_r, most_recent_all.
  - cbn [fmap list_fmap dialogue.run_gemini]. unfold mbind at 1, Py_bind at 1.
    destruct (Hans (transcript (model self))
                (most_recent 19 (buffer self user_id), m))
      as (response & reply & Hanswer & Htext).
    destruct (generate_response_answered _ _ _ _ _ Hanswer Htext)
      as (s1 & -> & Hmodel1 & Hbuf1).
    destruct (IH s1) as (replies & s2 & Hrun & Hlen & Hbuf).
    { rewrite Hmodel1. by apply always_answers_answer. }
    { rewrite Hbuf1, most_recent_length. lia. }
    exists (reply :: replies), s2.
    unfold mbind, Py_bind.
    change (list_fmap _ _ (dialogue.Say user_id) ms)
      with (dialogue.Say user_id <$> ms).
    rewrite Hrun. split; [done|]. split; [cbn; by rewrite Hlen|].
    rewrite Hbuf, Hbuf1, most_recent_app, <-app_assoc. done.
Qed.

Lemma dialogue_is_stored_in_order_witness :
  exists replies s2,
    dialogue.run_gemini (dialogue.Say 3 <$> ["one"; "two"; "three"]) echo_client
    = (Returns replies, s2)
    /\ length replies = length ["one"; "two"; "three"]
    /\ buffer s2 3
       = most_recent 20
           (buffer echo_client 3 ++ exchanges ["one"; "two"; "three"] replies).
Proof.
  apply (dialogue_is_stored_in_order echo_client 3 ["one"; "two"; "three"]).
  - intros received req. eexists _, _. split; reflexivity.
  - vm_compute. lia.
Defined.
End generate_more.

(** ** The users that the store knows *)

Section known_users.
Import GeminiClient.

Lemma appended_users_cons (c : Call) (cs : list Call) :
  appended_users (c :: cs) = appended_users [c] ∪ appended_users cs.
Proof.
  unfold appended_users. destruct c as [u r x|u]; cbn.
  - by rewrite (right_id_L ∅ (∪)).
  - by rewrite (left_id_L ∅ (∪)).
Qed.

Lemma call_dom (c : Call) (self : GeminiClient.t) :
  exists s1,
    call c self = (Returns tt, s1)
    /\ dom (conversations s1) = dom (conversations self) ∪ appended_users [c].
Proof.
  destruct c as [u r x|u]; cbn [call]; unfold appended_users; cbn.
  - rewrite add_message_to_history_run. eexists. split; [done|].
    cbn [conversations].
    by rewrite dom_insert_L, (right_id_L ∅ (∪)), (comm_L (∪)).
  - rewrite clear_conversation_run, (right_id_L ∅ (∪)).
    destruct (conversations self !! u) as [l|] eqn:E;
      eexists; (split; [done|]); [|done].
    cbn [conversations]. rewrite dom_insert_L.
    apply subseteq_union_1_L, singleton_subseteq_l, elem_of_dom. eauto.
Qed.

(** X19.  The store never forgets a user.  After any run of
    [add_message_to_history] and [clear_conversation] calls, the keys of
    [conversations] are the keys it had before together with the users
    for whom a turn was appended: [clear_conversation] empties an entry
    and keeps its key, and it adds no key for a user it does not know. *)
Theorem known_users_only_grow (cs : list Call) (self : GeminiClient.t) :
  exists self',
    calls cs self = (Returns tt, self')
    /\ dom (conversations self') = dom (conversations self) ∪ appended_users cs.
Proof.
  revert self. induction cs as [|c cs IH]; intros self.
  - exists self. split; [done|]. unfold appended_users. cbn.
    by rewrite (right_id_L ∅ (∪)).
  - rewrite calls_cons.
    destruct (call_dom c self) as (s1 & -> & Hdom1).
    destruct (IH s1) as (s2 & -> & Hdom2).
    exists s2. split; [done|].
    by rewrite Hdom2, Hdom1, (appended_users_cons c cs), (assoc_L (∪)).
Qed.
End known_users.

(** ** The variant of [simple_bot.py] and [ultra_simple_bot.py] *)

Section simple.
Import GeminiClient.
Implicit Types (s : simple_bot.t) (user_id : Z) (l : list Turn).

(** [simple_bot.generate_response] in closed form: the list is cut to 20
    after the user turn only; the model turn is appended to what is
    left. *)
Lemma simple_generate_response_run s user_id message :
  let buf :=
    most_recent 20
      (buffer s user_id ++ [{| role := "user"; content := message |}]) in
  let req := (most_recent 19 (buffer s user_id), message) in
  let m' := {| transcript := transcript (model s) ++ [req];
               answer := answer (model s) |} in
  let failed e :=
    (Returns ("Sorry, I encountered an error: " +:+ str e),
     {| model := m';
        conversations := <[user_id := buf]> (conversations s) |}) in
  simple_bot.generate_response user_id message s
  = match answer (model s) (transcript (model s)) req with
    | Raises e => failed e
    | Returns response =>
        match text response with
        | Raises e => failed e
        | Returns reply =>
            (Returns reply,
             {| model := m';
                conversations :=
                  <[user_id := buf ++ [{| role := "model"; content := reply |}]]>
                    (conversations s) |})
        end
    end.
Proof.
  intros buf req m' failed.
  assert (forall l,
    buffer s user_id = l ->
    slice None (Some (-1))
      (most_recent 20 (l ++ [{| role := "user"; content := message |}]))
    = most_recent 19 (buffer s user_id)) as Hctx.
  { intros l ->. change 20%nat with (S 19).
    by rewrite most_recent_snoc, slice_init_snoc. }
  unfold simple_bot.generate_response, try_except, append, contains, getitem,
    setitem, when, on_model, start_chat, send_message_async, get_text,
    mbind, mret, Py_bind, Py_ret.
  subst failed m' req buf. cbv zeta.
  destruct (conversations s !! user_id) as [l|] eqn:E.
  - rewrite bool_decide_eq_true_2 by eauto.
    rewrite (buffer_lookup _ _ _ E) in *. specialize (Hctx l eq_refl).
    cbn -[slice Z.of_nat lookup insert most_recent]. rewrite E.
    cbn -[slice Z.of_nat lookup insert most_recent]. rewrite lookup_insert_eq.
    cbn -[slice Z.of_nat lookup insert most_recent].
    case_bool_decide as Hlen;
      repeat first
        [ rewrite lookup_insert_eq | rewrite insert_insert_eq
        | progress cbn -[slice Z.of_nat lookup insert most_recent] ].
    + change (-20) with (- Z.of_nat 20). rewrite slice_suffix by lia.
      fold (most_recent 20 (l ++ [{| role := "user"; content := message |}])).
      rewrite Hctx.
      destruct (answer _ _ _) as [response|e]; [|done].
      repeat first
        [ rewrite lookup_insert_eq | rewrite insert_insert_eq
        | progress cbn -[slice Z.of_nat lookup insert most_recent] ].
      destruct (text response) as [reply|e];
        [by rewrite ?insert_insert_eq | done].
    + rewrite length_app in Hlen. cbn [length] in Hlen.
      rewrite (most_recent_all 20) in * by (rewrite length_app; cbn; lia).
      rewrite Hctx.
      destruct (answer _ _ _) as [response|e]; [|done].
      repeat first
        [ rewrite lookup_insert_eq | rewrite insert_insert_eq
        | progress cbn -[slice Z.of_nat lookup insert most_recent] ].
      destruct (text response) as [reply|e];
        [by rewrite ?insert_insert_eq | done].
  - rewrite bool_decide_eq_false_2 by (intros [? ?]; done).
    rewrite (buffer_absent _ _ E) in *. specialize (Hctx [] eq_refl).
    repeat first
      [ rewrite lookup_insert_eq | rewrite insert_insert_eq
      | progress cbn -[slice Z.of_nat lookup insert most_recent] ].
    rewrite bool_decide_eq_false_2 by lia.
    repeat first
      [ rewrite lookup_insert_eq | rewrite insert_insert_eq
      | progress cbn -[slice Z.of_nat lookup insert most_recent] ].
    rewrite (most_recent_all 20) in * by (cbn; lia). cbn [app] in Hctx.
    rewrite Hctx.
    destruct (answer _ _ _) as [response|e]; [|done].
    repeat first
      [ rewrite lookup_insert_eq | rewrite insert_insert_eq
      | progress cbn -[slice Z.of_nat lookup insert most_recent] ].
    destruct (text response) as [reply|e];
      [by rewrite ?insert_insert_eq | done].
Qed.

Lemma simple_generate_response_returns s user_id message :
  exists reply s2,
    simple_bot.generate_response user_id message s = (Returns reply, s2)
    /\ model s2
       = {| transcript :=
              transcript (model s)
                ++ [(most_recent 19 (buffer s user_id), message)];
            answer := answer (model s) |}
    /\ (forall v, v <> user_id ->
          conversations s2 !! v = conversations s !! v)
    /\ (buffer s2 user_id
        = most_recent 20
            (buffer s user_id ++ [{| role := "user"; content := message |}])
        \/ exists response,
             answer (model s) (transcript (model s))
               (most_recent 19 (buffer s user_id), message) = Returns response
             /\ text response = Returns reply
             /\ buffer s2 user_id
                = most_recent 20
                    (buffer s user_id
                       ++ [{| role := "user"; content := message |}])
                    ++ [{| role := "model"; content := reply |}]).
Proof.
  rewrite simple_generate_response_run. cbv zeta.
  destruct (answer _ _ _) as [response|e] eqn:Ha;
    [destruct (text response) as [reply|e] eqn:Ht|];
    eexists _, _; (split; [done|]); cbn [model conversations];
    (split; [done|]);
    (split; [by intros v Hv; rewrite lookup_insert_ne|]);
    rewrite buffer_insert; [right|left|left]; try done.
  by exists response.
Qed.

(** X7.  [generate_response] of [simple_bot.py] and [ultra_simple_bot.py]
    always returns a string.  It cuts the list to 20 turns after the user
    turn and not after the model turn: the buffer holds at most 21 turns
    afterwards, and exactly 21 whenever 19 or more turns were stored
    before and the service answered.  The request carries the 19 most
    recent turns stored before the call, and no other user's entry
    changes. *)
Theorem simple_buffer_holds_up_to_21 s user_id message :
  exists reply s2,
    simple_bot.generate_response user_id message s = (Returns reply, s2)
    /\ (1 <= length (buffer s2 user_id) <= 21)%nat
    /\ transcript (model s2)
       = transcript (model s)
           ++ [(most_recent 19 (buffer s user_id), message)]
    /\ (forall v, v <> user_id ->
          conversations s2 !! v = conversations s !! v)
    /\ (forall response,
          answer (model s) (transcript (model s))
            (most_recent 19 (buffer s user_id), message) = Returns response ->
          text response = Returns reply ->
          (19 <= length (buffer s user_id))%nat ->
          length (buffer s2 user_id) = 21%nat).
Proof.
  destruct (simple_generate_response_returns s user_id message)
    as (reply & s2 & Hrun & Hmodel & Hframe & Hbuf).
  exists reply, s2. split; [done|]. rewrite Hmodel. cbn [transcript].
  assert (length (most_recent 20
                    (buffer s user_id
                       ++ [{| role := "user"; content := message |}]))
          = Nat.min (length (buffer s user_id) + 1) 20) as Hlen.
  { rewrite most_recent_length, length_app. done. }
  destruct Hbuf as [Hb | (response & Ha & Ht & Hb)]; rewrite Hb.
  - rewrite Hlen. split; [lia|]. split; [done|]. split; [done|].
    intros response' Ha' Ht' H19. exfalso.
    (* the buffer shows no model turn, so the call was not answered *)
    revert Hrun. rewrite simple_generate_response_run. cbv zeta.
    rewrite Ha', Ht'. intros [= <-]. rewrite buffer_insert in Hb.
    apply (f_equal length) in Hb. rewrite length_app in Hb. cbn in Hb. lia.
  - rewrite length_app, Hlen. cbn [length].
    split; [lia|]. split; [done|]. split; [done|].
    intros _ _ _ H19. lia.
Qed.

Lemma simple_buffer_holds_up_to_21_witness :
  exists reply s2,
    simple_bot.generate_response 1 "more" full_client = (Returns reply, s2)
    /\ length (buffer s2 1) = 21%nat.
Proof.
  destruct (simple_buffer_holds_up_to_21 full_client 1 "more")
    as (reply & s2 & Hrun & _ & _ & _ & Hfull).
  exists reply, s2. split; [exact Hrun|].
  apply (Hfull {| text := Returns "[more]" |}).
  - reflexivity.
  - revert Hrun. vm_compute. intros [= <- _]. reflexivity.
  - vm_compute. lia.
Defined.

Lemma matches_buffer (g : GeminiClient.t) s user_id :
  dialogue.matches g s ->
  buffer g user_id = most_recent 20 (buffer s user_id).
Proof.
  intros [_ Hconv]. unfold buffer. rewrite Hconv.
  by destruct (conversations s !! user_id).
Qed.

Lemma matches_insert (g : GeminiClient.t) s (m : GenerativeModel) user_id l :
  dialogue.matches g s ->
  dialogue.matches
    {| model := m;
       conversations := <[user_id := most_recent 20 l]> (conversations g) |}
    {| model := m; conversations := <[user_id := l]> (conversations s) |}.
Proof.
  intros [_ Hconv]. split; [done|]. intros u. cbn [conversations].
  destruct (decide (u = user_id)) as [->|Hne].
  - by rewrite !lookup_insert_eq.
  - by rewrite !lookup_insert_ne.
Qed.

Lemma matches_say (g : GeminiClient.t) s user_id message :
  dialogue.matches g s ->
  exists reply g' s',
    generate_response user_id message g = (Returns reply, g')
    /\ simple_bot.generate_response user_id message s = (Returns reply, s')
    /\ dialogue.matches g' s'.
Proof.
  intros Hm. pose proof (matches_buffer _ _ user_id Hm) as Hbuf.
  destruct Hm as [Hmodel Hconv].
  rewrite generate_response_run, simple_generate_response_run. cbv zeta.
  rewrite context_of_recent, Hbuf, most_recent_most_recent by lia.
  rewrite !most_recent_app, Hmodel.
  set (buf := most_recent 20 (buffer s user_id ++ _)).
  assert (most_recent 20 buf = buf) as Hidem
    by (subst buf; apply most_recent_most_recent; lia).
  assert (dialogue.matches g s) as Hm by done.
  destruct (answer _ _ _) as [response|e];
    [destruct (text response) as [reply|e]|];
    eexists _, _, _; (split; [done|]); (split; [done|]).
  - by apply matches_insert.
  - rewrite <-Hidem at 1. by apply matches_insert.
  - rewrite <-Hidem at 1. by apply matches_insert.
Qed.

Lemma matches_forget (g : GeminiClient.t) s user_id :
  dialogue.matches g s ->
  exists g' s',
    clear_conversation user_id g = (Returns tt, g')
    /\ simple_bot.clear_history user_id s = (Returns tt, s')
    /\ dialogue.matches g' s'.
Proof.
  intros Hm. pose proof Hm as [Hmodel Hconv].
  change (simple_bot.clear_history user_id s) with (clear_conversation user_id s).
  rewrite !clear_conversation_run, Hconv.
  destruct (conversations s !! user_id) as [l|]; cbn [fmap option_fmap option_map];
    eexists _, _; (split; [done|]); (split; [done|]); [|done].
  rewrite Hmodel. by apply (matches_insert g s (model s) user_id []).
Qed.

(** X8.  The store of [bot.py] and the store of [simple_bot.py] behave
    alike.  Start both from matching states (the same service, and for
    every user the [GeminiClient] entry being the last 20 turns of the
    [simple_bot] entry) and run the same messages and clear requests, for
    any users in any order: both return the same replies, both send the
    same requests in the same order, and the states match again. *)
Theorem both_variants_give_the_same_replies (g : GeminiClient.t) s
    (steps : list dialogue.Step) :
  dialogue.matches g s ->
  exists replies g' s',
    dialogue.run_gemini steps g = (Returns replies, g')
    /\ dialogue.run_simple steps s = (Returns replies, s')
    /\ dialogue.matches g' s'.
Proof.
  revert g s. induction steps as [|[u m|u] steps IH]; intros g s Hm.
  - by exists [], g, s.
  - cbn [dialogue.run_gemini dialogue.run_simple]. unfold mbind, Py_bind.
    destruct (matches_say g s u m Hm) as (reply & g1 & s1 & -> & -> & Hm1).
    destruct (IH g1 s1 Hm1) as (replies & g' & s' & -> & -> & Hm').
    by exists (reply :: replies), g', s'.
  - cbn [dialogue.run_gemini dialogue.run_simple]. unfold mbind, Py_bind.
    destruct (matches_forget g s u Hm) as (g1 & s1 & -> & -> & Hm1).
    by apply IH.
Qed.

Lemma both_variants_give_the_same_replies_witness :
  exists replies g' s',
    dialogue.run_gemini
      [dialogue.Say 1 "a"; dialogue.Say 2 "b"; dialogue.Forget 1;
       dialogue.Say 1 "c"] echo_client = (Returns replies, g')
    /\ dialogue.run_simple
         [dialogue.Say 1 "a"; dialogue.Say 2 "b"; dialogue.Forget 1;
          dialogue.Say 1 "c"] echo_client = (Returns replies, s')
    /\ dialogue.matches g' s'.
Proof.
  apply (both_variants_give_the_same_replies echo_client echo_client).
  split; [reflexivity|]. intros u. reflexivity.
Defined.
End simple.

(** ** The terminal chat: [generate_response], [clear_history] and [main] *)

Section terminal_more.
Import terminal_chat.

Lemma terminal_context (h : list Turn) (x : Turn) :
  slice None (Some (-1))
    (if bool_decide (Z.of_nat (length (h ++ [x])) > 20)
     then tail (h ++ [x]) else h ++ [x])
  = if bool_decide (20 <= length h)%nat then tail h else h.
Proof.
  rewrite length_app. cbn [length].
  case_bool_decide as H1; case_bool_decide as H2; try lia.
  - destruct h as [|y h]; [cbn in H2; lia|]. cbn [app tail].
    apply slice_init_snoc.
  - apply slice_init_snoc.
Qed.

Lemma terminal_generate_response_returns (message : string) (g : terminal_chat.t) :
  exists reply g',
    generate_response message g = (Returns reply, g')
    /\ model g'
       = {| transcript :=
              transcript (model g)
                ++ [(if bool_decide (20 <= length (conversation_history g))%nat
                     then tail (conversation_history g)
                     else conversation_history g, message)];
            answer := answer (model g) |}
    /\ (length (conversation_history g) <= length (conversation_history g'))%nat
    /\ (forall response,
          answer (model g) (transcript (model g))
            (if bool_decide (20 <= length (conversation_history g))%nat
             then tail (conversation_history g)
             else conversation_history g, message) = Returns response ->
          is_Some (match text response with
                   | Returns r => Some r | Raises _ => None end) ->
          (length (conversation_history g) < length (conversation_history g'))%nat).
Proof.
  rewrite terminal_generate_response_run. cbv zeta.
  rewrite terminal_context.
  set (h := conversation_history g).
  assert (length h
          <= length (if bool_decide (Z.of_nat (length (h ++ [{| role := "user"; content := message |}])) > 20)%Z
                     then tail (h ++ [{| role := "user"; content := message |}])
                     else h ++ [{| role := "user"; content := message |}]))%nat
    as Hlen.
  { case_bool_decide; [rewrite length_tail_snoc|rewrite length_app; cbn]; lia. }
  match type of Hlen with (_ <= length ?l)%nat => set (l2 := l) in * end.
  destruct (answer _ _ _) as [response|e] eqn:Ha;
    [destruct (text response) as [reply|e] eqn:Ht|];
    eexists _, _; (split; [done|]); cbn [model conversation_history];
    (split; [done|]); (split; [rewrite ?length_app; cbn [length]; lia|]).
  - intros response' [= <-] _. rewrite length_app. cbn [length]. lia.
  - intros response' [= <-]. rewrite Ht. by intros [? ?].
  - intros response' ?. done.
Qed.

(** X9.  [generate_response] of the terminal chat always returns a
    string: the guard of [pop(0)] keeps it from an empty list, and every
    failure of the service is turned into the returned text.  Exactly one
    request is sent; its context is the whole history held before the
    call, without its oldest entry once 20 or more are held. *)
Theorem terminal_call_returns_and_sends_history (message : string)
    (g : terminal_chat.t) :
  exists reply g',
    generate_response message g = (Returns reply, g')
    /\ transcript (model g')
       = transcript (model g)
           ++ [(if bool_decide (20 <= length (conversation_history g))%nat
                then tail (conversation_history g)
                else conversation_history g, message)].
Proof.
  destruct (terminal_generate_response_returns message g)
    as (reply & g' & Hrun & Hmodel & _).
  exists reply, g'. split; [done|]. by rewrite Hmodel.
Qed.

(** X10.  In a run of messages the history of the terminal chat never
    gets shorter, whatever the service does; and in front of a service
    that always answers it gains at least one entry per message, from any
    starting history: it is not bounded. *)
Theorem terminal_history_gains_an_entry_per_message (messages : list string)
    (g : terminal_chat.t) :
  exists replies g',
    chat_loop messages g = (Returns replies, g')
    /\ answer (model g') = answer (model g)
    /\ (length (conversation_history g) <= length (conversation_history g'))%nat
    /\ (always_answers (model g) ->
        (length (conversation_history g) + length messages
         <= length (conversation_history g'))%nat).
Proof.
  revert g. induction messages as [|m ms IH]; intros g.
  - exists [], g. split; [done|]. split; [done|]. cbn. lia.
  - cbn [chat_loop]. unfold mbind, Py_bind.
    destruct (terminal_generate_response_returns m g)
      as (reply & g1 & -> & Hmodel & Hmono & Hgain).
    destruct (IH g1) as (replies & g' & -> & Hanswer & Hmono' & Hgain').
    exists (reply :: replies), g'. split; [done|].
    split; [by rewrite Hanswer, Hmodel|]. split; [lia|].
    intros Hans.
    destruct (Hans (transcript (model g))
                (if bool_decide (20 <= length (conversation_history g))%nat
                 then tail (conversation_history g)
                 else conversation_history g, m))
      as (response & r & Ha & Ht).
    specialize (Hgain response Ha). rewrite Ht in Hgain.
    specialize (Hgain ltac:(eauto)).
    assert (always_answers (model g1)) as Hans1
      by (rewrite Hmodel; by apply always_answers_answer).
    specialize (Hgain' Hans1). cbn [length]. lia.
Qed.

Lemma terminal_history_gains_an_entry_per_message_witness :
  exists replies g',
    chat_loop (replicate 30 "hi") echo_terminal = (Returns replies, g')
    /\ (length (conversation_history echo_terminal) + length (replicate 30 "hi")
        <= length (conversation_history g'))%nat.
Proof.
  destruct (terminal_history_gains_an_entry_per_message
              (replicate 30 "hi") echo_terminal)
    as (replies & g' & Hrun & _ & _ & Hgain).
  exists replies, g'. split; [exact Hrun|]. apply Hgain.
  intros received req. eexists _, _. split; reflexivity.
Defined.
End terminal_more.

Section terminal_main.
Import terminal_chat terminal_session.

Lemma lower_char_slash (c : ascii) :
  lower_char c = "/"%char -> c = "/"%char.
Proof.
  destruct c as [[] [] [] [] [] [] [] []]; vm_compute; congruence.
Qed.

(** A string that lowers to a word with a leading slash has one itself. *)
Lemma lower_keeps_slash (x rest : string) :
  lower x = String "/"%char rest -> startswith "/" x = true.
Proof.
  destruct x as [|c x']; cbn [lower]; [done|].
  intros [= Hc _]. apply lower_char_slash in Hc. subst c.
  by destruct x'.
Qed.



Lemma turn_plain (line : string) (g : terminal_chat.t) :
  plain line ->
  turn line g
  = match generate_response (strip line) g with
    | (Returns _, g') => (Returns Continue, g')
    | (Raises e, g') => (Raises e, g')
    end.
Proof.
  intros (Hne & Hslash & Hquit). unfold turn. rewrite Hslash.
  rewrite bool_decide_eq_false_2 by done.
  rewrite !(bool_decide_eq_false_2 (lower (strip line) = _))
    by (intros H; apply lower_keeps_slash in H; congruence).
  by rewrite bool_decide_eq_false_2 by done.
Qed.

Lemma turn_quit (line : string) (g : terminal_chat.t) :
  lower (strip line) ∈ ["/quit"; "/exit"; "quit"; "exit"] ->
  turn line g = (Returns Break, g).
Proof. intros H. unfold turn. by rewrite bool_decide_eq_true_2. Qed.

(** X12.  A session of lines that are all messages (something is left
    after [strip], no leading slash, not a word that ends the session)
    does what [generate_response] does on the stripped lines, one after
    the other.  A following [quit], [exit], [/quit] or [/exit], in any
    letter case and with any white space around it, ends the session:
    whatever is typed after it changes nothing. *)
Theorem session_sends_the_stripped_lines (lines : list string)
    (g : terminal_chat.t) :
  Forall plain lines ->
  exists replies g',
    chat_loop (strip <$> lines) g = (Returns replies, g')
    /\ session lines g = (Returns tt, g')
    /\ forall quit rest,
         lower (strip quit) ∈ ["/quit"; "/exit"; "quit"; "exit"] ->
         session (lines ++ quit :: rest) g = (Returns tt, g').
Proof.
  revert g. induction lines as [|line lines IH]; intros g Hplain.
  - exists [], g. split; [done|]. split; [done|].
    intros quit rest Hquit. cbn [app session]. unfold mbind, Py_bind.
    by rewrite turn_quit.
  - apply Forall_cons in Hplain as [Hline Hplain].
    cbn [fmap list_fmap chat_loop].
    destruct (terminal_generate_response_returns (strip line) g)
      as (reply & g1 & Hrun & _).
    destruct (IH g1 Hplain) as (replies & g' & Hloop & Hsession & Hquit).
    exists (reply :: replies), g'.
    change (list_fmap _ _ strip lines) with (strip <$> lines).
    unfold mbind at 1 2, Py_bind at 1 2. rewrite Hrun.
    unfold mbind, Py_bind. rewrite Hloop. split; [done|].
    cbn [app session]. unfold mbind, Py_bind.
    rewrite turn_plain, Hrun by done. split; [done|].
    intros quit rest Hq. by apply Hquit.
Qed.

Lemma session_sends_the_stripped_lines_witness :
  exists replies g',
    chat_loop (strip <$> [" hello "; "How are you?"]) echo_terminal
    = (Returns replies, g')
    /\ session [" hello "; "How are you?"] echo_terminal = (Returns tt, g')
    /\ forall quit rest,
         lower (strip quit) ∈ ["/quit"; "/exit"; "quit"; "exit"] ->
         session ([" hello "; "How are you?"] ++ quit :: rest) echo_terminal
         = (Returns tt, g').
Proof.
  apply (session_sends_the_stripped_lines [" hello "; "How are you?"]
           echo_terminal).
  assert (forall line,
    strip line <> EmptyString ->
    startswith "/" (strip line) = false ->
    bool_decide (lower (strip line) ∈ ["/quit"; "/exit"; "quit"; "exit"]) = false ->
    plain line) as Hplain.
  { intros line H1 H2 H3. split; [done|]. split; [done|].
    by apply (proj1 (bool_decide_eq_false _)). }
  apply List.Forall_cons; [|apply List.Forall_cons; [|apply List.Forall_nil]].
  - apply Hplain; [discriminate | reflexivity | vm_compute; reflexivity].
  - apply Hplain; [discriminate | reflexivity | vm_compute; reflexivity].
Defined.
End terminal_main.

(** ** More on the delivery in [bot.py] *)

Section bot_more.
Import bot.

(** The shape of the comprehension for any positive chunk size: the
    number of pieces, and the length of each. *)
Lemma pieces_shape (n : Z) (s : string) :
  0 < n -> 0 < len s ->
  let pieces :=
    (fun i => str_slice (Some i) (Some (i + n)) s) <$> range 0 (len s) n in
  Z.of_nat (length pieces) = (len s + n - 1) / n
  /\ forall (k : nat) (c : string),
       pieces !! k = Some c ->
       0 < len c /\ (S k < length pieces -> len c = n)%nat.
Proof.
  intros Hn Hs pieces. subst pieces. rewrite comprehension_pieces by done.
  pose proof (Z.div_mod (len s + n - 1) n ltac:(lia)) as Hdiv.
  pose proof (Z.mod_pos_bound (len s + n - 1) n Hn) as Hmod.
  set (q := (len s + n - 1) / n) in *.
  assert (0 <= q) by (subst q; apply Z.div_pos; lia).
  rewrite !length_fmap, length_seq. split; [lia|].
  intros k c. rewrite !list_lookup_fmap.
  destruct (seq 0 (Z.to_nat q) !! k) as [k'|] eqn:Hk; [|done].
  apply lookup_seq in Hk as [-> Hlt]. cbn [fmap option_fmap option_map].
  intros [= <-]. unfold len in *.
  rewrite length_string_of_list, length_take, length_drop,
    length_list_of_string.
  assert (Z.of_nat k * n + 1 <= Z.of_nat (String.length s)) as Hroom by nia.
  split; [nia|]. intros Hnext.
  assert ((Z.of_nat k + 1) * n + 1 <= Z.of_nat (String.length s)) by nia.
  nia.
Qed.

(** X13.  The chunks that [handle_message] computes for a response that
    is not empty: there are [ceil(len / 4096)] of them, none is empty,
    and every chunk but the last has exactly 4096 characters; for a
    response of more than 4096 characters there are at least two. *)
Theorem chunks_are_full_but_the_last (response : string) :
  0 < len response ->
  Z.of_nat (length (chunks_of response))
  = (len response + config.MAX_MESSAGE_LENGTH - 1) / config.MAX_MESSAGE_LENGTH
  /\ (forall (k : nat) (c : string),
        chunks_of response !! k = Some c ->
        0 < len c
        /\ (S k < length (chunks_of response) ->
            len c = config.MAX_MESSAGE_LENGTH)%nat)
  /\ (len response > config.MAX_MESSAGE_LENGTH ->
      (2 <= length (chunks_of response))%nat).
Proof.
  intros Hlen.
  destruct (pieces_shape config.MAX_MESSAGE_LENGTH response) as [Hcount Hshape];
    [done..|].
  split; [done|]. split; [done|].
  intros Hlong. fold (chunks_of response) in Hcount.
  assert (2 <= (len response + config.MAX_MESSAGE_LENGTH - 1)
               / config.MAX_MESSAGE_LENGTH); [|lia].
  apply Z.div_le_lower_bound; unfold config.MAX_MESSAGE_LENGTH in *; lia.
Qed.

Lemma chunks_are_full_but_the_last_witness :
  Z.of_nat (length (chunks_of (letters 4100)))
  = (len (letters 4100) + config.MAX_MESSAGE_LENGTH - 1)
      / config.MAX_MESSAGE_LENGTH
  /\ (forall (k : nat) (c : string),
        chunks_of (letters 4100) !! k = Some c ->
        0 < len c
        /\ (S k < length (chunks_of (letters 4100)) ->
            len c = config.MAX_MESSAGE_LENGTH)%nat)
  /\ (len (letters 4100) > config.MAX_MESSAGE_LENGTH ->
      (2 <= length (chunks_of (letters 4100)))%nat).
Proof.
  apply (chunks_are_full_but_the_last (letters 4100)).
  vm_compute. reflexivity.
Defined.

(** X14.  [handle_message] returns for every client, user and message,
    and what it delivers is the reply of [generate_response], nothing
    less and nothing more: at least one text is handed to the platform,
    the texts written one after the other are the reply, and a reply of
    at most 4096 characters goes out as one text. *)
Theorem handle_message_delivers_the_reply (b : bot.t) (user_id : Z)
    (message_text : string) :
  exists response c' texts,
    GeminiClient.generate_response user_id message_text (gemini_client b)
    = (Returns response, c')
    /\ handle_message user_id message_text b
       = (Returns tt,
          {| gemini_client := c'; delivered := delivered b ++ texts |})
    /\ texts <> []
    /\ joined texts = response
    /\ (len response <= config.MAX_MESSAGE_LENGTH -> texts = [response]).
Proof.
  destruct (generate_response_returns (gemini_client b) user_id message_text)
    as (response & c' & Hrun & _).
  unfold handle_message, try_except, mbind, Py_bind, on_client.
  rewrite Hrun. case_bool_decide as Hlong.
  - exists response, c', (chunks_of response).
    rewrite send_all_run. cbn [gemini_client delivered].
    destruct (pieces_general config.MAX_MESSAGE_LENGTH response) as [Hj _];
      [done|].
    destruct (pieces_shape config.MAX_MESSAGE_LENGTH response) as [Hcount _];
      [done | unfold config.MAX_MESSAGE_LENGTH in *; lia |].
    fold (chunks_of response) in Hcount, Hj.
    split; [done|]. split; [done|]. split; [|split; [done|lia]].
    intros Hnil. rewrite Hnil in Hcount. cbn [length] in Hcount.
    assert (1 <= (len response + config.MAX_MESSAGE_LENGTH - 1)
                 / config.MAX_MESSAGE_LENGTH); [|lia].
    apply Z.div_le_lower_bound; unfold config.MAX_MESSAGE_LENGTH in *; lia.
  - exists response, c', [response]. unfold send.
    cbn [gemini_client delivered joined].
    split; [done|]. split; [done|]. split; [done|].
    by rewrite append_empty_r.
Qed.

Lemma get_conversation_summary_nothing (self : GeminiClient.t) (user_id : Z) :
  GeminiClient.buffer self user_id = [] ->
  GeminiClient.get_conversation_summary user_id self
  = (Returns "No conversation history.", self).
Proof.
  unfold GeminiClient.buffer, GeminiClient.get_conversation_summary,
    GeminiClient.contains, GeminiClient.getitem, mbind, mret, Py_bind, Py_ret.
  destruct (GeminiClient.conversations self !! user_id) as [l|] eqn:E;
    cbn [default from_option id].
  - intros ->. rewrite bool_decide_eq_true_2 by eauto.
    cbn [negb]. cbv beta iota. by rewrite E.
  - intros _. by rewrite bool_decide_eq_false_2 by (intros [? ?]; done).
Qed.

Lemma get_conversation_summary_reads (self : GeminiClient.t) (user_id : Z) :
  exists summary,
    GeminiClient.get_conversation_summary user_id self = (Returns summary, self).
Proof.
  destruct (GeminiClient.conversations self !! user_id) as [[|x l]|] eqn:E.
  - eexists. apply get_conversation_summary_nothing.
    by rewrite (buffer_lookup _ _ _ E).
  - eexists. by apply get_conversation_summary_run.
  - eexists. apply get_conversation_summary_nothing.
    by apply buffer_absent.
Qed.

(** X15.  The [/history] handler only reads: it returns for every client
    and user, leaves the client as it was, and hands the platform one
    text, the heading followed by what [get_conversation_summary]
    gives. *)
Theorem history_command_only_reads (b : bot.t) (user_id : Z) :
  exists summary,
    GeminiClient.get_conversation_summary user_id (gemini_client b)
    = (Returns summary, gemini_client b)
    /\ bot_commands.history_command user_id b
       = (Returns tt,
          {| gemini_client := gemini_client b;
             delivered :=
               delivered b
                 ++ ["📚 **Conversation History:**" +:+ newline +:+ newline
                       +:+ summary] |}).
Proof.
  destruct (get_conversation_summary_reads (gemini_client b) user_id)
    as (summary & Hrun).
  exists summary. split; [done|].
  unfold bot_commands.history_command, mbind, Py_bind, on_client.
  by rewrite Hrun.
Qed.

(** X16.  [/clear] followed by [/history] of the same user: the two
    handlers return, the user is told that the history was cleared and
    then that there is no conversation history, whatever was stored
    before; the entries of the other users and the service are as they
    were. *)
Theorem clear_then_history_shows_nothing (b : bot.t) (user_id : Z) :
  exists b',
    (bot_commands.clear_command user_id;; bot_commands.history_command user_id) b
    = (Returns tt, b')
    /\ delivered b'
       = delivered b
           ++ ["🧹 Conversation history cleared! We're starting fresh. 😊";
               "📚 **Conversation History:**" +:+ newline +:+ newline
                 +:+ "No conversation history."]
    /\ GeminiClient.model (gemini_client b') = GeminiClient.model (gemini_client b)
    /\ forall v, v <> user_id ->
         GeminiClient.conversations (gemini_client b') !! v
         = GeminiClient.conversations (gemini_client b) !! v.
Proof.
  unfold bot_commands.clear_command, bot_commands.history_command,
    mbind, Py_bind, on_client, send.
  rewrite clear_conversation_run.
  set (c1 := match GeminiClient.conversations (gemini_client b) !! user_id with
             | Some _ => _ | None => gemini_client b end).
  assert (GeminiClient.buffer c1 user_id = []
          /\ GeminiClient.model c1 = GeminiClient.model (gemini_client b)
          /\ forall v, v <> user_id ->
               GeminiClient.conversations c1 !! v
               = GeminiClient.conversations (gemini_client b) !! v)
    as (Hbuf & Hmodel & Hframe).
  { subst c1.
    destruct (GeminiClient.conversations (gemini_client b) !! user_id)
      as [l|] eqn:E.
    - rewrite buffer_insert. split; [done|]. split; [done|].
      intros v Hv. cbn. by rewrite lookup_insert_ne.
    - by rewrite (buffer_absent _ _ E). }
  cbn [gemini_client delivered].
  rewrite (get_conversation_summary_nothing c1 user_id Hbuf).
  eexists. split; [done|]. cbn [gemini_client delivered].
  by rewrite <-app_assoc.
Qed.
End bot_more.

(** ** The polling loop of [ultra_simple_bot.py] *)

Section polling.
Import ultra_simple_bot.


(** X17.  What the polling loop does with a text.  A text that begins
    with [/start], [/help], [/clear] or [/about] never reaches the
    service: one post goes to the chat, no request is sent, and the
    sender's buffer is untouched or, for [/clear], read as empty
    afterwards.  Every other text, also one that begins with another
    slash word, is given to [generate_response] as it is, and the reply
    is posted to the chat the text came from. *)
Theorem polling_dispatch (chat user_id : Z) (x : string)
    (b : ultra_simple_bot.t) :
  (startswith "/start" x || startswith "/help" x
   || startswith "/clear" x || startswith "/about" x = true ->
   exists reply b',
     handle_text chat user_id x b = (Returns tt, b')
     /\ posted b' = posted b ++ [(chat, reply)]
     /\ GeminiClient.model (store b') = GeminiClient.model (store b)
     /\ (store b' = store b \/ GeminiClient.buffer (store b') user_id = []))
  /\ (startswith "/start" x || startswith "/help" x
      || startswith "/clear" x || startswith "/about" x = false ->
      exists response c',
        simple_bot.generate_response user_id x (store b) = (Returns response, c')
        /\ handle_text chat user_id x b
           = (Returns tt,
              {| store := c'; posted := posted b ++ [(chat, response)] |})).
Proof.
  destruct (simple_generate_response_returns (store b) user_id x)
    as (response & c' & Hrun & _).
  pose proof (clear_conversation_run (store b) user_id) as Hclear.
  change (GeminiClient.clear_conversation user_id (store b))
    with (simple_bot.clear_history user_id (store b)) in Hclear.
  unfold handle_text.
  destruct (startswith "/start" x), (startswith "/help" x),
    (startswith "/clear" x), (startswith "/about" x);
    unfold send_telegram_message, on_store, mbind, Py_bind;
    rewrite ?Hrun, ?Hclear;
    cbn [orb]; (split; [intros Hcmd|intros Hnone]); try discriminate;
    try (by exists response, c');
    eexists _, _; (split; [done|]); (split; [done|]); cbn [store];
    try (split; [done|]; by left).
  all: destruct (GeminiClient.conversations (store b) !! user_id) as [l|] eqn:E;
    (split; [done|]); right; by rewrite ?buffer_insert, ?(buffer_absent _ _ E).
Qed.

Lemma polling_dispatch_witness :
  (exists reply b',
     handle_text 10 20 "/clear please" echo_poller = (Returns tt, b')
     /\ posted b' = posted echo_poller ++ [(10, reply)]
     /\ GeminiClient.model (store b') = GeminiClient.model (store echo_poller)
     /\ (store b' = store echo_poller
         \/ GeminiClient.buffer (store b') 20 = []))
  /\ exists response c',
       simple_bot.generate_response 20 "/weather" (store echo_poller)
       = (Returns response, c')
       /\ handle_text 10 20 "/weather" echo_poller
          = (Returns tt,
             {| store := c';
                posted := posted echo_poller ++ [(10, response)] |}).
Proof.
  split.
  - apply (polling_dispatch 10 20 "/clear please" echo_poller). reflexivity.
  - apply (polling_dispatch 10 20 "/weather" echo_poller). reflexivity.
Defined.


End polling.
